(** * IoT temperature pipeline: a shallow embedding and its properties

    The development follows [airflow/dags/iot_temperature_processing.py]:
    four tasks ([load_and_filter_data], [clean_temperature],
    [calculate_extreme_days], [generate_report]) that pass data frames
    through files and small values through the scheduler's XCom store.

    Modelling conventions:
    - a data frame is the list of its rows, in index order;
    - a [float64] is an exact rational ([Q]); sums, means, interpolation
      and comparisons are exact, and [NaN] is not a value of the type;
    - [str] is [string] (bytes); [int] is [Z];
    - a raised exception is the [Err] branch of [result];
    - the XCom store is a record with one optional field per key:
      [xcom_pull] of a key that was never pushed gives [None]. *)

From Stdlib Require Import ZArith QArith Qround Qabs Lqa Lia.
From Stdlib Require Import List String Ascii Bool Permutation Sorted.
From Stdlib Require Import DecimalString.
Import ListNotations.

Local Close Scope Q_scope.
Local Open Scope nat_scope.
Local Open Scope list_scope.
Local Open Scope string_scope.

(** ** Exceptions *)

Inductive exn : Type :=
| NoMatchingRecords (observed : list string)
    (* AirflowException of load_and_filter_data; carries df['out/in'].unique() *)
| EmptyInput
    (* AirflowException of clean_temperature and calculate_extreme_days *)
| TypeError
    (* arithmetic, formatting or iteration on None *)
| ZeroDivisionError.

Inductive result (A : Type) : Type :=
| Ok (a : A)
| Err (e : exn).

Arguments Ok {A} a.
Arguments Err {A} e.

Definition bind {A B : Type} (m : result A) (k : A -> result B) : result B :=
  match m with
  | Ok a => k a
  | Err e => Err e
  end.

Notation "x <- m ;; k" := (bind m (fun x => k))
  (at level 61, m at next level, right associativity).
Notation "' pat <- m ;; k" := (bind m (fun x => match x with pat => k end))
  (at level 61, pat pattern, m at next level, right associativity).

(** ** Generic list operations used by the data-frame calls *)

Section ListOps.
Context {A : Type}.

Section Unique.
Variable eqb : A -> A -> bool.

(** [Series.unique()]: the distinct values, in order of first appearance. *)
Fixpoint unique (l : list A) : list A :=
  match l with
  | [] => []
  | x :: t => x :: filter (fun y => negb (eqb y x)) (unique t)
  end.
End Unique.

Section Sort.
Variable leb : A -> A -> bool.

Fixpoint insert (x : A) (l : list A) : list A :=
  match l with
  | [] => [x]
  | y :: t => if leb x y then x :: y :: t else y :: insert x t
  end.

(** A stable sort: among elements that compare equal the earlier one
    of the input stays first. *)
Fixpoint sort (l : list A) : list A :=
  match l with
  | [] => []
  | x :: t => insert x (sort t)
  end.
End Sort.
End ListOps.

(** ** Strings *)

Definition is_upper (c : ascii) : bool :=
  let n := nat_of_ascii c in (65 <=? n)%nat && (n <=? 90)%nat.

Definition lower_char (c : ascii) : ascii :=
  if is_upper c then ascii_of_nat (nat_of_ascii c + 32) else c.

(** [str.lower()]. Bytes outside [A-Z] are kept: no character outside
    ASCII lower-cases to the one-character strings [i] or [n]. *)
Fixpoint lower (s : string) : string :=
  match s with
  | EmptyString => EmptyString
  | String c t => String (lower_char c) (lower t)
  end.

Definition is_digit (c : ascii) : bool :=
  let n := nat_of_ascii c in (48 <=? n)%nat && (n <=? 57)%nat.

Definition digit_val (c : ascii) : nat := nat_of_ascii c - 48.

(** [\s] of the regular-expression engine, on ASCII: tab to carriage
    return, the four separators 28..31 and the blank. *)
Definition is_space (c : ascii) : bool :=
  let n := nat_of_ascii c in
  ((9 <=? n)%nat && (n <=? 13)%nat) || ((28 <=? n)%nat && (n <=? 31)%nat)
  || (n =? 32)%nat.

(** ** Calendar dates ([datetime.date]) *)

Record Date : Type := mkDate { year : nat; month : nat; day : nat }.

Definition Date_eqb (a b : Date) : bool :=
  (year a =? year b)%nat && (month a =? month b)%nat && (day a =? day b)%nat.

(** Chronological order, as [datetime.date.__le__]. *)
Definition Date_leb (a b : Date) : bool :=
  if (year a =? year b)%nat then
    if (month a =? month b)%nat then (day a <=? day b)%nat
    else (month a <? month b)%nat
  else (year a <? year b)%nat.

Definition is_leap (y : nat) : bool :=
  ((y mod 4 =? 0)%nat && negb (y mod 100 =? 0)%nat) || (y mod 400 =? 0)%nat.

Definition days_in_month (y m : nat) : nat :=
  match m with
  | 2 => if is_leap y then 29 else 28
  | 4 | 6 | 9 | 11 => 30
  | _ => 31
  end.

(** *** [pd.to_datetime(s, format='%d-%m-%Y %H:%M', errors='coerce').dt.date]

    The format is compiled to the regular expression
    [(3[0-1]|[1-2]\d|0[1-9]|[1-9]| [1-9])-(1[0-2]|0[1-9]|[1-9])-(\d\d\d\d)\s+(2[0-3]|[0-1]\d|\d):([0-5]\d|\d)]
    which must match the whole string; the fields must then form a date
    of the calendar. A string that fails gives [NaT], here [None]. The
    range of the library's timestamp type is not modelled. *)

(** The longest prefix of digits, as their values, and the rest. *)
Fixpoint span_digits (s : string) : list nat * string :=
  match s with
  | String c t =>
      if is_digit c then let '(ds, r) := span_digits t in (digit_val c :: ds, r)
      else ([], s)
  | EmptyString => ([], s)
  end.

Fixpoint skip_spaces (s : string) : string :=
  match s with
  | String c t => if is_space c then skip_spaces t else s
  | EmptyString => s
  end.

(** A field of one or two digits with a value in [lo..hi]. *)
Definition field12 (lo hi : nat) (ds : list nat) : option nat :=
  match ds with
  | [a] => if (lo <=? a)%nat && (a <=? hi)%nat then Some a else None
  | [a; b] =>
      let v := 10 * a + b in
      if (lo <=? v)%nat && (v <=? hi)%nat then Some v else None
  | _ => None
  end.

(** [%d]: as [field12 1 31], or a blank followed by one digit [1-9]. *)
Definition day_field (s : string) : option nat * string :=
  match s with
  | String " " (String c r) =>
      if is_digit c && negb (digit_val c =? 0)%nat
      then (match span_digits r with
            | ([], _) => Some (digit_val c)
            | _ => None
            end, snd (span_digits r))
      else (None, s)
  | _ => let '(ds, r) := span_digits s in (field12 1 31 ds, r)
  end.

Definition year_field (ds : list nat) : option nat :=
  match ds with
  | [a; b; c; d] => Some (1000 * a + 100 * b + 10 * c + d)
  | _ => None
  end.

Definition expect (c : ascii) (s : string) : option string :=
  match s with
  | String c' r => if Ascii.eqb c c' then Some r else None
  | EmptyString => None
  end.

Definition expect_spaces (s : string) : option string :=
  match s with
  | String c r => if is_space c then Some (skip_spaces r) else None
  | EmptyString => None
  end.

Definition obind {A B : Type} (o : option A) (k : A -> option B) : option B :=
  match o with
  | Some a => k a
  | None => None
  end.

Definition to_datetime (s : string) : option Date :=
  let '(od, s1) := day_field s in
  obind od (fun d =>
  obind (expect "-" s1) (fun s2 =>
  let '(ms, s3) := span_digits s2 in
  obind (field12 1 12 ms) (fun m =>
  obind (expect "-" s3) (fun s4 =>
  let '(ys, s5) := span_digits s4 in
  obind (year_field ys) (fun y =>
  obind (expect_spaces s5) (fun s6 =>
  let '(hs, s7) := span_digits s6 in
  obind (field12 0 23 hs) (fun _ =>
  obind (expect ":" s7) (fun s8 =>
  let '(ns, s9) := span_digits s8 in
  obind (field12 0 59 ns) (fun _ =>
  match s9 with
  | EmptyString =>
      if (1 <=? y)%nat && (d <=? days_in_month y m)%nat
      then Some (mkDate y m d) else None
  | _ => None
  end))))))))).

(** ** Rows and the XCom store *)

(** A row of the raw CSV. *)
Record raw_reading : Type := mkRaw {
  room_id : string;
  noted_date : string;
  temp : Q;
  out_in : string
}.

(** A row of [filtered_data.parquet] and [cleaned_data.parquet]: the raw
    columns and the added [date] column. *)
Record reading : Type := mkReading {
  raw : raw_reading;
  date : Date
}.

Definition rtemp (r : reading) : Q := temp (raw r).

(** A row of [daily_stats], and a record of [to_dict('records')]. *)
Record daily : Type := mkDaily {
  d_date : Date;
  avg_temp : Q
}.

Record xcom : Type := mkXcom {
  total_rows : option Z;
  filtered_rows : option Z;
  outliers_removed : option Z;
  p5 : option Q;
  p95 : option Q;
  cleaned_rows : option Z;
  hottest_days : option (list daily);
  coldest_days : option (list daily)
}.

Definition xcom_empty : xcom :=
  mkXcom None None None None None None None None.

(** [ti.xcom_push(key=..., value=...)], one function per key of the DAG. *)
Definition push_total_rows (v : Z) (ti : xcom) : xcom :=
  mkXcom (Some v) (filtered_rows ti) (outliers_removed ti) (p5 ti) (p95 ti)
         (cleaned_rows ti) (hottest_days ti) (coldest_days ti).
Definition push_filtered_rows (v : Z) (ti : xcom) : xcom :=
  mkXcom (total_rows ti) (Some v) (outliers_removed ti) (p5 ti) (p95 ti)
         (cleaned_rows ti) (hottest_days ti) (coldest_days ti).
Definition push_outliers_removed (v : Z) (ti : xcom) : xcom :=
  mkXcom (total_rows ti) (filtered_rows ti) (Some v) (p5 ti) (p95 ti)
         (cleaned_rows ti) (hottest_days ti) (coldest_days ti).
Definition push_p5 (v : Q) (ti : xcom) : xcom :=
  mkXcom (total_rows ti) (filtered_rows ti) (outliers_removed ti) (Some v) (p95 ti)
         (cleaned_rows ti) (hottest_days ti) (coldest_days ti).
Definition push_p95 (v : Q) (ti : xcom) : xcom :=
  mkXcom (total_rows ti) (filtered_rows ti) (outliers_removed ti) (p5 ti) (Some v)
         (cleaned_rows ti) (hottest_days ti) (coldest_days ti).
Definition push_cleaned_rows (v : Z) (ti : xcom) : xcom :=
  mkXcom (total_rows ti) (filtered_rows ti) (outliers_removed ti) (p5 ti) (p95 ti)
         (Some v) (hottest_days ti) (coldest_days ti).
Definition push_hottest_days (v : list daily) (ti : xcom) : xcom :=
  mkXcom (total_rows ti) (filtered_rows ti) (outliers_removed ti) (p5 ti) (p95 ti)
         (cleaned_rows ti) (Some v) (coldest_days ti).
Definition push_coldest_days (v : list daily) (ti : xcom) : xcom :=
  mkXcom (total_rows ti) (filtered_rows ti) (outliers_removed ti) (p5 ti) (p95 ti)
         (cleaned_rows ti) (hottest_days ti) (Some v).

Definition len {A : Type} (l : list A) : Z := Z.of_nat (List.length l).

(** ** Task 1: [load_and_filter_data] *)

(** [df['out/in'].str.lower() == 'in'] *)
Definition is_in (r : raw_reading) : bool := String.eqb (lower (out_in r)) "in".

(** [df[df['out/in'].str.lower() == 'in']] *)
Definition filter_in (df : list raw_reading) : list raw_reading := filter is_in df.

(** The frame after the [date] column is assigned: [NaT] is [None]. *)
Definition assign_date (df : list raw_reading) : list (raw_reading * option Date) :=
  map (fun r => (r, to_datetime (noted_date r))) df.

(** [dropna(subset=['date'])] *)
Fixpoint dropna_date (df : list (raw_reading * option Date)) : list reading :=
  match df with
  | [] => []
  | (r, Some d) :: t => mkReading r d :: dropna_date t
  | (_, None) :: t => dropna_date t
  end.

(** Returns the frame written to [filtered_data.parquet] and the store. *)
Definition load_and_filter_data (df : list raw_reading) (ti : xcom)
  : result (list reading * xcom) :=
  let df_filtered := filter_in df in
  if (List.length df_filtered =? 0)%nat then
    Err (NoMatchingRecords (unique String.eqb (map out_in df)))
  else
    let df_filtered := dropna_date (assign_date df_filtered) in
    let ti := push_filtered_rows (len df_filtered) ti in
    let ti := push_total_rows (len df) ti in
    Ok (df_filtered, ti).

(** ** Task 2: [clean_temperature] *)

(** [a + (b - a) * t], computed from the upper end when [t >= 0.5]. *)
Definition lerp (a b t : Q) : Q :=
  let diff_b_a := (b - a)%Q in
  if Qle_bool (1 # 2) t then (b - diff_b_a * (1 - t))%Q
  else (a + diff_b_a * t)%Q.

(** [Series.quantile(q)] with the default [interpolation='linear']:
    the virtual index [q * (n - 1)] in the sorted values, its floor and
    the next index (clipped to the last one), and [lerp] between them. *)
Definition quantile (xs : list Q) (q : Q) : Q :=
  let arr := sort Qle_bool xs in
  let n := List.length arr in
  let virtual_index := (q * inject_Z (Z.of_nat n - 1))%Q in
  let previous_index := Z.to_nat (Qfloor virtual_index) in
  let next_index := Nat.min (previous_index + 1) (n - 1) in
  let gamma := (virtual_index - inject_Z (Qfloor virtual_index))%Q in
  lerp (nth previous_index arr 0%Q) (nth next_index arr 0%Q) gamma.

(** [df[(df['temp'] >= p5) & (df['temp'] <= p95)]] *)
Definition in_band (lo hi : Q) (r : reading) : bool :=
  Qle_bool lo (rtemp r) && Qle_bool (rtemp r) hi.

(** Returns the frame written to [cleaned_data.parquet] and the store. *)
Definition clean_temperature (df : list reading) (ti : xcom)
  : result (list reading * xcom) :=
  if (List.length df =? 0)%nat then Err EmptyInput
  else
    let p5 := quantile (map rtemp df) (5 # 100) in
    let p95 := quantile (map rtemp df) (95 # 100) in
    let df_clean := filter (in_band p5 p95) df in
    let outliers_removed := (len df - len df_clean)%Z in
    let pct_removed := (inject_Z outliers_removed / inject_Z (len df) * 100)%Q in
    (* pct_removed only goes to the task log; it is not pushed *)
    let ti := push_outliers_removed outliers_removed ti in
    let ti := push_p5 p5 ti in
    let ti := push_p95 p95 ti in
    let ti := push_cleaned_rows (len df_clean) ti in
    Ok (df_clean, ti).

(** ** Task 3: [calculate_extreme_days] *)

Definition Qsum (xs : list Q) : Q := fold_right Qplus 0%Q xs.

Definition mean (xs : list Q) : Q := (Qsum xs / inject_Z (len xs))%Q.

(** The [temp] values of the rows of one date. *)
Definition temps_on (d : Date) (df : list reading) : list Q :=
  map rtemp (filter (fun r => Date_eqb (date r) d) df).

(** [df.groupby('date')['temp'].mean().reset_index()] with the columns
    renamed: one row per date, the dates in increasing order. *)
Definition daily_stats (df : list reading) : list daily :=
  map (fun d => mkDaily d (mean (temps_on d df)))
      (sort Date_leb (unique Date_eqb (map date df))).

Definition avg_geb (a b : daily) : bool := Qle_bool (avg_temp b) (avg_temp a).
Definition avg_leb (a b : daily) : bool := Qle_bool (avg_temp a) (avg_temp b).

(** [nlargest(n, 'avg_temp')] and [nsmallest(n, 'avg_temp')], with the
    default [keep='first']. *)
Definition nlargest (n : nat) (l : list daily) : list daily :=
  firstn n (sort avg_geb l).
Definition nsmallest (n : nat) (l : list daily) : list daily :=
  firstn n (sort avg_leb l).

(** Returns the two frames written to [hottest_days.csv] and
    [coldest_days.csv], and the store. *)
Definition calculate_extreme_days (df : list reading) (ti : xcom)
  : result (list daily * list daily * xcom) :=
  if (List.length df =? 0)%nat then Err EmptyInput
  else
    let daily_stats := daily_stats df in
    let hottest := nlargest 5 daily_stats in
    let coldest := nsmallest 5 daily_stats in
    let ti := push_hottest_days hottest ti in
    let ti := push_coldest_days coldest ti in
    Ok (hottest, coldest, ti).

(** ** Task 4: [generate_report] *)

(** *** Rendering of values *)

(** [str(n)] for an [int]. *)
Definition show_Z (z : Z) : string := NilZero.string_of_int (Z.to_int z).

Definition show_nat (n : nat) : string := show_Z (Z.of_nat n).

(** [{v}] in an f-string for a pulled integer: [None] renders as text. *)
Definition show_opt (v : option Z) : string :=
  match v with
  | Some z => show_Z z
  | None => "None"
  end.

Fixpoint zeros (n : nat) : string :=
  match n with
  | O => ""
  | S k => "0" ++ zeros k
  end.

(** Left padding with zeros up to [width] characters. *)
Definition zfill (width : nat) (s : string) : string :=
  zeros (width - String.length s) ++ s.

(** The nearest integer, ties to the even one. *)
Definition round_half_even (q : Q) : Z :=
  let f := Qfloor q in
  match Qcompare (q - inject_Z f) (1 # 2) with
  | Lt => f
  | Gt => (f + 1)%Z
  | Eq => if Z.even f then f else (f + 1)%Z
  end.

(** The number of hundredths that [.2f] prints for the magnitude of [q]. *)
Definition hundredths (q : Q) : Z := round_half_even (Qabs q * 100).

(** [format(q, '.2f')]: sign, integer part, point, two decimals. *)
Definition format_2f (q : Q) : string :=
  let h := hundredths q in
  (if Qle_bool 0 q then "" else "-")
    ++ show_Z (h / 100) ++ "." ++ zfill 2 (show_Z (h mod 100)).

(** [str(d)] for a [datetime.date]: ISO form [YYYY-MM-DD]. *)
Definition show_Date (d : Date) : string :=
  zfill 4 (show_nat (year d)) ++ "-" ++ zfill 2 (show_nat (month d))
    ++ "-" ++ zfill 2 (show_nat (day d)).

Definition nl : string := String (ascii_of_nat 10) EmptyString.

(** [sep.join(l)] *)
Fixpoint join (sep : string) (l : list string) : string :=
  match l with
  | [] => ""
  | [x] => x
  | x :: t => x ++ sep ++ join sep t
  end.

(** [enumerate(l)], counting from [i]. *)
Fixpoint enumerate_from {A : Type} (i : nat) (l : list A) : list (nat * A) :=
  match l with
  | [] => []
  | x :: t => (i, x) :: enumerate_from (S i) t
  end.

Definition enumerate {A : Type} (l : list A) : list (nat * A) := enumerate_from 0 l.

(** *** Operations on pulled values, which may be [None] *)

(** [(a / b) * 100] on two pulled integers. *)
Definition percent (a b : option Z) : result Q :=
  match a, b with
  | Some x, Some y =>
      if (y =? 0)%Z then Err ZeroDivisionError
      else Ok (inject_Z x / inject_Z y * 100)%Q
  | _, _ => Err TypeError
  end.

(** [f'{v:.2f}'] on a pulled float. *)
Definition format_2f_pulled (v : option Q) : result string :=
  match v with
  | Some q => Ok (format_2f q)
  | None => Err TypeError
  end.

(** One line of a ranking: position, date and average. *)
Definition day_line (p : nat * daily) : string :=
  "    " ++ show_nat (fst p + 1) ++ ". " ++ show_Date (d_date (snd p))
    ++ " — " ++ format_2f (avg_temp (snd p)) ++ "°C".

(** [chr(10).join([... for i, d in enumerate(days)])] on a pulled list. *)
Definition day_lines (days : option (list daily)) : result string :=
  match days with
  | Some l => Ok (join nl (map day_line (enumerate l)))
  | None => Err TypeError
  end.

Definition PROCESSED_PATH : string := "/opt/airflow/processed".
Definition HOT_DAYS_PATH : string := PROCESSED_PATH ++ "/hottest_days.csv".
Definition COLD_DAYS_PATH : string := PROCESSED_PATH ++ "/coldest_days.csv".

Definition rule : string := "==========================================".

(** The lines of the report, given its rendered fields. *)
Definition report_lines (now total filtered pct s5 s95 outliers cleaned hot cold : string)
  : list string :=
  [ rule;
    "ОТЧЁТ ПО ОБРАБОТКЕ ДАННЫХ IOT-ТЕМПЕРАТУРЫ";
    rule;
    "Дата обработки: " ++ now;
    "";
    "Исходные данные:";
    "  - Всего записей: " ++ total;
    "  - Записей после фильтрации (out/in = 'In'): " ++ filtered;
    "  - Процент отфильтрованных: " ++ pct ++ "%";
    "";
    "Очистка температуры:";
    "  - 5-й перцентиль: " ++ s5 ++ "°C";
    "  - 95-й перцентиль: " ++ s95 ++ "°C";
    "  - Удалено выбросов: " ++ outliers;
    "  - Осталось записей после очистки: " ++ cleaned;
    "";
    "Экстремальные дни:";
    "  Самые жаркие:";
    hot;
    "";
    "  Самые холодные:";
    cold;
    "";
    "Результаты сохранены в:";
    "  - " ++ HOT_DAYS_PATH;
    "  - " ++ COLD_DAYS_PATH;
    rule ].

(** Returns the text written to [processing_report.txt]. [now] is the
    rendered [datetime.now()]. The fields of the f-string are evaluated
    from left to right; the first one that raises decides the exception. *)
Definition generate_report (now : string) (ti : xcom) : result string :=
  let total_rows := total_rows ti in
  let filtered_rows := filtered_rows ti in
  let outliers_removed := outliers_removed ti in
  let p5 := p5 ti in
  let p95 := p95 ti in
  let cleaned_rows := cleaned_rows ti in
  let hottest_days := hottest_days ti in
  let coldest_days := coldest_days ti in
  pct <- percent filtered_rows total_rows ;;
  s5 <- format_2f_pulled p5 ;;
  s95 <- format_2f_pulled p95 ;;
  hot <- day_lines hottest_days ;;
  cold <- day_lines coldest_days ;;
  Ok (nl ++ join nl (report_lines now (show_opt total_rows) (show_opt filtered_rows)
                        (format_2f pct) s5 s95 (show_opt outliers_removed)
                        (show_opt cleaned_rows) hot cold) ++ nl).

(** ** The DAG: [t1 >> t2 >> t3 >> t4] *)

Definition run_dag (now : string) (csv : list raw_reading) : result (xcom * string) :=
  '(filtered, ti) <- load_and_filter_data csv xcom_empty ;;
  '(cleaned, ti) <- clean_temperature filtered ti ;;
  '(_, _, ti) <- calculate_extreme_days cleaned ti ;;
  report <- generate_report now ti ;;
  Ok (ti, report).

(** ** Sample data *)

Definition row (d : string) (t : Q) (oi : string) : raw_reading :=
  mkRaw "Room Admin" d t oi.

Definition sample_csv : list raw_reading :=
  [ row "01-01-2026 10:00" 30 "In";
    row "01-01-2026 11:00" 32 "in";
    row "01-01-2026 12:00" 99 "Out";
    row "02-01-2026 09:15" 28 "IN";
    row "not a date" 31 "In";
    row "03-01-2026 18:40" (61 # 2) "In" ].

Definition sample_now : string := "2026-01-04 00:00:00".

(** ** Notions used in the statements *)

(** Whether the [noted_date] of a row parses. *)
Definition parses (r : raw_reading) : bool :=
  match to_datetime (noted_date r) with
  | Some _ => true
  | None => false
  end.



(** The text [p] occurs somewhere in the text [s]. *)
Definition occurs_in (p s : string) : Prop := exists a b : string, s = a ++ p ++ b.

(** [s.startswith(p)] *)
Fixpoint starts_with (p s : string) : bool :=
  match p, s with
  | EmptyString, _ => true
  | String a p', String b s' => Ascii.eqb a b && starts_with p' s'
  | String _ _, EmptyString => false
  end.

(** [p in s] *)
Fixpoint contains (p s : string) : bool :=
  starts_with p s ||
  match s with
  | EmptyString => false
  | String _ t => contains p t
  end.

(** Whether [n] padded to two characters is two digits of value [n]. *)
Definition two_digit_check (n : nat) : bool :=
  match zfill 2 (show_nat n) with
  | String a (String b EmptyString) =>
      is_digit a && is_digit b && (n =? 10 * digit_val a + digit_val b)%nat
  | _ => false
  end.

(** A rendering of [q] with two decimals: an optional sign, the integer
    part, a point and two digits, which together are the number of
    hundredths nearest to the magnitude of [q]. *)
Definition two_decimals (q : Q) (s : string) : Prop :=
  exists (h : Z) (a b : ascii),
    (0 <= h)%Z
    /\ (Qabs (Qabs q * 100 - inject_Z h) <= 1 # 2)%Q
    /\ s = (if Qle_bool 0 q then "" else "-")
             ++ show_Z (h / 100) ++ "." ++ String a (String b EmptyString)
    /\ is_digit a = true /\ is_digit b = true
    /\ (h mod 100)%Z = Z.of_nat (10 * digit_val a + digit_val b).

(** [x] is a line of [l] other than the first and the last. *)
Inductive inner_line (x : string) : list string -> Prop :=
| inner_here (a b : string) (l : list string) : inner_line x (a :: x :: b :: l)
| inner_later (a : string) (l : list string) : inner_line x l -> inner_line x (a :: l).

(** The facts of a run in which every key has been pushed. *)
Definition complete_facts (t f o : Z) (a b : Q) (c : Z) (hot cold : list daily) : xcom :=
  mkXcom (Some t) (Some f) (Some o) (Some a) (Some b) (Some c) (Some hot) (Some cold).

(** The text of one ranking entry, given the rendered average. *)
Definition ranking_entry (i : nat) (d : daily) (avg : string) : string :=
  "    " ++ show_nat (i + 1) ++ ". " ++ show_Date (d_date d) ++ " — " ++ avg ++ "°C".


(** ** More sample data *)

(** Three readings at 10, 20 and 30 degrees, on one day. *)
Definition sample_filtered : list reading :=
  [ mkReading (row "01-01-2026 10:00" 10 "In") (mkDate 2026 1 1);
    mkReading (row "01-01-2026 11:00" 20 "In") (mkDate 2026 1 1);
    mkReading (row "01-01-2026 12:00" 30 "In") (mkDate 2026 1 1) ].

(** Readings on three days: means 21, 19 and 25. *)
Definition sample_cleaned : list reading :=
  [ mkReading (row "01-01-2026 10:00" 20 "In") (mkDate 2026 1 1);
    mkReading (row "02-01-2026 10:00" 19 "In") (mkDate 2026 1 2);
    mkReading (row "01-01-2026 16:00" 22 "In") (mkDate 2026 1 1);
    mkReading (row "03-01-2026 10:00" 25 "In") (mkDate 2026 1 3) ].

(** Two indoor readings at 10 and 20 degrees, raw and filtered. *)
Definition two_row_csv : list raw_reading :=
  [ row "01-01-2026 10:00" 10 "In"; row "01-01-2026 11:00" 20 "In" ].

Definition two_row_filtered : list reading :=
  [ mkReading (row "01-01-2026 10:00" 10 "In") (mkDate 2026 1 1);
    mkReading (row "01-01-2026 11:00" 20 "In") (mkDate 2026 1 1) ].

(** Ten raw rows: two outdoor, eight indoor of which one is far colder. *)
Definition outlier_csv : list raw_reading :=
  [ row "01-01-2026 08:00" 5 "In";
    row "01-01-2026 09:00" 20 "In";
    row "01-01-2026 10:00" 20 "In";
    row "01-01-2026 11:00" 35 "Out";
    row "02-01-2026 08:00" 20 "In";
    row "02-01-2026 09:00" 20 "In";
    row "02-01-2026 10:00" 20 "In";
    row "02-01-2026 11:00" 36 "Out";
    row "03-01-2026 08:00" 20 "In";
    row "03-01-2026 09:00" 20 "In" ].

(** * Properties *)

(** ** Facts about the list operations *)

Section UniqueFacts.
Context {A : Type} (eqb : A -> A -> bool).
Hypothesis eqb_spec : forall a b, eqb a b = true <-> a = b.

Lemma unique_In (l : list A) (x : A) : In x (unique eqb l) <-> In x l.
Proof.
  induction l as [|a t IH]; simpl; [tauto|].
  rewrite filter_In, IH, negb_true_iff.
  destruct (eqb x a) eqn:E.
  - apply eqb_spec in E. subst. intuition congruence.
  - assert (a <> x) by (intros ->; rewrite (proj2 (eqb_spec x x) eq_refl) in E; discriminate).
    tauto.
Qed.

Lemma unique_NoDup (l : list A) : NoDup (unique eqb l).
Proof.
  induction l as [|a t IH]; simpl; constructor.
  - rewrite filter_In, negb_true_iff. intros [_ E].
    rewrite (proj2 (eqb_spec a a) eq_refl) in E. discriminate.
  - now apply NoDup_filter.
Qed.

End UniqueFacts.

Section SortFacts.
Context {A : Type} (leb : A -> A -> bool).

Lemma insert_perm (x : A) (l : list A) : Permutation (insert leb x l) (x :: l).
Proof.
  induction l as [|y t IH]; simpl; [reflexivity|].
  destruct (leb x y); [reflexivity|].
  rewrite IH. apply perm_swap.
Qed.

Lemma sort_perm (l : list A) : Permutation (sort leb l) l.
Proof.
  induction l as [|x t IH]; simpl; [reflexivity|].
  rewrite insert_perm. now constructor.
Qed.

Lemma sort_length (l : list A) : List.length (sort leb l) = List.length l.
Proof. apply Permutation_length, sort_perm. Qed.

Lemma sort_In (l : list A) (x : A) : In x (sort leb l) <-> In x l.
Proof.
  split; apply Permutation_in; [|symmetry]; apply sort_perm.
Qed.

Variable R : A -> A -> Prop.
Hypothesis leb_R : forall a b, leb a b = true -> R a b.
Hypothesis leb_total : forall a b, leb a b = false -> R b a.
Hypothesis R_trans : forall a b c, R a b -> R b c -> R a c.

Lemma insert_sorted (x : A) (l : list A) :
  StronglySorted R l -> StronglySorted R (insert leb x l).
Proof.
  induction 1 as [|y t Hs IH Hall]; simpl.
  - constructor; constructor.
  - destruct (leb x y) eqn:E.
    + constructor; [now constructor|].
      constructor; [now apply leb_R|].
      eapply Forall_impl; [|exact Hall]. intros z Hz.
      eapply R_trans; [apply leb_R; exact E|exact Hz].
    + constructor; [exact IH|].
      apply Forall_forall. intros z Hz.
      apply (Permutation_in _ (insert_perm x t)) in Hz.
      destruct Hz as [<-|Hz]; [now apply leb_total|].
      rewrite Forall_forall in Hall. now apply Hall.
Qed.

Lemma sort_sorted (l : list A) : StronglySorted R (sort leb l).
Proof.
  induction l as [|x t IH]; simpl; [constructor|now apply insert_sorted].
Qed.
End SortFacts.

Lemma StronglySorted_firstn {A : Type} (R : A -> A -> Prop) (n : nat) (l : list A) :
  StronglySorted R l -> StronglySorted R (firstn n l).
Proof.
  intros H. revert n. induction H as [|x t Hs IH Hall]; intros [|n]; simpl;
    try constructor.
  - apply IH.
  - apply Forall_forall. intros y Hy. rewrite Forall_forall in Hall.
    apply Hall. eapply (In_nth_error) in Hy. destruct Hy as [k Hk].
    rewrite nth_error_firstn in Hk. destruct (k <? n)%nat; [|discriminate].
    eapply nth_error_In; eauto.
Qed.

(** In a sorted list the element at a smaller index is the smaller one. *)
Lemma sorted_nth_le (s : list Q) (i j : nat) :
  StronglySorted Qle s -> i <= j -> j < List.length s ->
  (nth i s 0 <= nth j s 0)%Q.
Proof.
  intros H. revert i j. induction H as [|x t Hs IH Hall]; intros i j Hij Hj.
  - simpl in Hj. lia.
  - destruct i as [|i], j as [|j]; simpl in *; try lia.
    + apply Qle_refl.
    + rewrite Forall_forall in Hall. apply Hall, nth_In. lia.
    + apply IH; lia.
Qed.

Lemma sort_Qle_sorted (xs : list Q) : StronglySorted Qle (sort Qle_bool xs).
Proof.
  apply sort_sorted.
  - intros a b. apply Qle_bool_imp_le.
  - intros a b E. destruct (Qlt_le_dec a b) as [Hlt|Hle]; [|exact Hle].
    apply Qlt_le_weak in Hlt. apply Qle_bool_iff in Hlt. congruence.
  - intros a b c. apply Qle_trans.
Qed.

(** ** Date parsing *)

Example to_datetime_ok :
  to_datetime "01-01-2026 10:00" = Some (mkDate 2026 1 1).
Proof. reflexivity. Qed.

Example to_datetime_short_fields :
  to_datetime "8-12-2018 9:30" = Some (mkDate 2018 12 8).
Proof. reflexivity. Qed.

Example to_datetime_feb30 : to_datetime "30-02-2018 09:30" = None.
Proof. reflexivity. Qed.

Example to_datetime_iso : to_datetime "2018-12-08 09:30" = None.
Proof. reflexivity. Qed.

Example to_datetime_seconds : to_datetime "08-12-2018 09:30:00" = None.
Proof. reflexivity. Qed.

Example to_datetime_blanks :
  to_datetime " 8-12-2018   09:30" = Some (mkDate 2018 12 8).
Proof. reflexivity. Qed.

Example to_datetime_leap :
  to_datetime "29-02-2024 00:00" = Some (mkDate 2024 2 29)
  /\ to_datetime "29-02-2023 00:00" = None.
Proof. split; reflexivity. Qed.

Example to_datetime_hour : to_datetime "08-12-2018 24:00" = None.
Proof. reflexivity. Qed.

(** ** Task 1 *)

Lemma is_in_iff (r : raw_reading) : is_in r = true <-> lower (out_in r) = "in".
Proof. unfold is_in. apply String.eqb_eq. Qed.

Lemma filter_in_In (df : list raw_reading) (r : raw_reading) :
  In r (filter_in df) <-> In r df /\ lower (out_in r) = "in".
Proof. unfold filter_in. rewrite filter_In, is_in_iff. tauto. Qed.

Lemma dropna_date_In (df : list raw_reading) (x : reading) :
  In x (dropna_date (assign_date df)) <->
  In (raw x) df /\ to_datetime (noted_date (raw x)) = Some (date x).
Proof.
  induction df as [|r t IH]; simpl; [tauto|].
  destruct (to_datetime (noted_date r)) as [d|] eqn:E; simpl; rewrite IH.
  - split.
    + intros [<-|[H1 H2]]; simpl; auto.
    + intros [[->|H1] H2]; auto.
      left. destruct x as [rx dx]. simpl in *. congruence.
  - split.
    + intros [H1 H2]; auto.
    + intros [[->|H1] H2]; auto. congruence.
Qed.

Lemma dropna_date_raw (df : list raw_reading) :
  map raw (dropna_date (assign_date df)) = filter parses df.
Proof.
  induction df as [|r t IH]; simpl; [reflexivity|].
  unfold parses at 1.
  destruct (to_datetime (noted_date r)); simpl; now rewrite IH.
Qed.

Lemma dropna_date_length (df : list raw_reading) :
  List.length (dropna_date (assign_date df)) <= List.length df.
Proof.
  rewrite <- (length_map raw), dropna_date_raw. apply filter_length_le.
Qed.


Lemma length_zero_nil {A : Type} (l : list A) :
  (List.length l =? 0)%nat = true <-> l = [].
Proof. rewrite Nat.eqb_eq. apply length_zero_iff_nil. Qed.

(** The two outcomes of the task, by the emptiness test of line 30. *)
Lemma load_and_filter_data_cases (df : list raw_reading) (ti : xcom) :
  (filter_in df = [] /\
   load_and_filter_data df ti =
     Err (NoMatchingRecords (unique String.eqb (map out_in df))))
  \/
  (filter_in df <> [] /\
   load_and_filter_data df ti =
     Ok (dropna_date (assign_date (filter_in df)),
         push_total_rows (len df)
           (push_filtered_rows (len (dropna_date (assign_date (filter_in df)))) ti))).
Proof.
  unfold load_and_filter_data.
  destruct (List.length (filter_in df) =? 0)%nat eqn:E.
  - left. apply length_zero_nil in E. auto.
  - right. split; [|reflexivity]. intros H. rewrite H in E. discriminate.
Qed.

(** C2. The out/in filter of task 1 (line 28) keeps a row exactly when
    the lower-cased [out/in] field is the string [in]: rows marked [IN],
    [in] or [In] pass it, rows marked [Out] or [OUT] do not and never
    reach the output of the task. For a row whose date parses, being in
    the output of the task is the same as passing the filter (the date
    drop that follows the filter is the subject of C3). *)
Theorem out_in_filter_case_insensitive :
  forall (df : list raw_reading) (r : raw_reading),
    (In r (filter_in df) <-> In r df /\ lower (out_in r) = "in")
    /\ (In r df -> In (out_in r) ["IN"; "in"; "In"] -> In r (filter_in df))
    /\ (In (out_in r) ["Out"; "OUT"] -> ~ In r (filter_in df))
    /\ (forall ti out ti',
          load_and_filter_data df ti = Ok (out, ti') ->
          (In (out_in r) ["Out"; "OUT"] -> ~ In r (map raw out))
          /\ (forall d, to_datetime (noted_date r) = Some d ->
                (In (mkReading r d) out <-> In r df /\ lower (out_in r) = "in"))).
Proof.
  intros df r. split; [apply filter_in_In|]. split; [|split].
  - intros Hr Ho. apply filter_in_In. split; [exact Hr|].
    simpl in Ho. destruct Ho as [E|[E|[E|[]]]]; rewrite <- E; reflexivity.
  - intros Ho Hin. apply filter_in_In in Hin. destruct Hin as [_ Hl].
    simpl in Ho. destruct Ho as [E|[E|[]]]; rewrite <- E in Hl; discriminate.
  - intros ti out ti' Hrun.
    destruct (load_and_filter_data_cases df ti) as [[_ E]|[_ E]];
      rewrite E in Hrun; [discriminate|].
    injection Hrun as <- _. split.
    + intros Ho Hin. apply in_map_iff in Hin. destruct Hin as [x [<- Hx]].
      apply dropna_date_In in Hx. destruct Hx as [Hx _].
      apply filter_in_In in Hx. destruct Hx as [_ Hl].
      simpl in Ho. destruct Ho as [E'|[E'|[]]]; rewrite <- E' in Hl; discriminate.
    + intros d Hd. rewrite dropna_date_In. simpl. rewrite filter_in_In. tauto.
Qed.

Lemma out_in_filter_case_insensitive_witness :
  In (row "02-01-2026 09:15" 28 "IN") (filter_in sample_csv)
  /\ ~ In (row "01-01-2026 12:00" 99 "Out") (filter_in sample_csv).
Proof.
  split.
  - apply (proj1 (proj2 (out_in_filter_case_insensitive sample_csv
                           (row "02-01-2026 09:15" 28 "IN")))).
    + simpl. tauto.
    + simpl. tauto.
  - apply (proj1 (proj2 (proj2 (out_in_filter_case_insensitive sample_csv
                                  (row "01-01-2026 12:00" 99 "Out"))))).
    simpl. tauto.
Defined.



(** One of the five rows that pass the filter has no date: four remain. *)
Example sample_filtered_rows :
  exists out ti',
    load_and_filter_data sample_csv xcom_empty = Ok (out, ti')
    /\ List.length (filter_in sample_csv) = 5
    /\ filtered_rows ti' = Some 4%Z.
Proof. eexists _, _. split; [reflexivity|]. split; reflexivity. Qed.

(** Rows that pass the filter but have no date do not make the task fail:
    it returns an empty frame. *)
Example all_dates_malformed :
  load_and_filter_data [row "yesterday" 20 "In"] xcom_empty
  = Ok ([], push_total_rows 1 (push_filtered_rows 0 xcom_empty)).
Proof. reflexivity. Qed.

(** C5. Task 1 raises exactly when no row passes the out/in filter (the
    test precedes the parsing of dates), and the exception it raises then
    carries the distinct values of the [out/in] column: each value of the
    column once. *)
Theorem no_matching_records_iff :
  forall (df : list raw_reading) (ti : xcom),
    ((exists e, load_and_filter_data df ti = Err e) <-> filter_in df = [])
    /\ (load_and_filter_data df ti
          = Err (NoMatchingRecords (unique String.eqb (map out_in df)))
        <-> filter_in df = [])
    /\ (forall e, load_and_filter_data df ti = Err e ->
          exists observed,
            e = NoMatchingRecords observed
            /\ NoDup observed
            /\ (forall v, In v observed <-> exists r, In r df /\ out_in r = v)).
Proof.
  intros df ti.
  destruct (load_and_filter_data_cases df ti) as [[Hnil E]|[Hne E]]; rewrite E.
  - split; [|split].
    + split; [auto|]. intros _. eexists. reflexivity.
    + tauto.
    + intros e He. injection He as <-. eexists. split; [reflexivity|].
      split; [apply unique_NoDup, String.eqb_eq|].
      intros v. rewrite (unique_In _ String.eqb_eq), in_map_iff.
      split; intros [r Hr]; exists r; tauto.
  - split; [|split].
    + split; [intros [e He]; discriminate|contradiction].
    + split; [discriminate|contradiction].
    + intros e He. discriminate.
Qed.

Lemma no_matching_records_iff_witness :
  load_and_filter_data [row "01-01-2026 10:00" 30 "Out";
                        row "01-01-2026 11:00" 31 "OUT";
                        row "01-01-2026 12:00" 32 "Out"] xcom_empty
  = Err (NoMatchingRecords ["Out"; "OUT"]).
Proof.
  apply (proj2 (proj1 (proj2 (no_matching_records_iff
    [row "01-01-2026 10:00" 30 "Out"; row "01-01-2026 11:00" 31 "OUT";
     row "01-01-2026 12:00" 32 "Out"] xcom_empty)))).
  reflexivity.
Defined.

(** ** Task 2 *)

Lemma Qmult_le_nonneg_l (c a b : Q) :
  (0 <= c)%Q -> (a <= b)%Q -> (c * a <= c * b)%Q.
Proof.
  intros Hc Hab. rewrite (Qmult_comm c a), (Qmult_comm c b).
  now apply Qmult_le_compat_r.
Qed.

Lemma lerp_eq (a b t : Q) : (lerp a b t == a + (b - a) * t)%Q.
Proof. unfold lerp. destruct (Qle_bool (1 # 2) t); ring. Qed.


Section RankFacts.
Variables (n : nat) (q : Q).
Hypothesis n_pos : 0 < n.
Hypothesis q_lo : (0 <= q)%Q.
Hypothesis q_hi : (q <= 1)%Q.

Let rank : Q := (q * inject_Z (Z.of_nat n - 1))%Q.

Lemma last_index_nonneg : (0 <= inject_Z (Z.of_nat n - 1))%Q.
Proof. change 0%Q with (inject_Z 0). rewrite <- Zle_Qle. lia. Qed.

Lemma rank_nonneg : (0 <= rank)%Q.
Proof. apply Qmult_le_0_compat; [exact q_lo|apply last_index_nonneg]. Qed.

Lemma rank_le_last : (rank <= inject_Z (Z.of_nat n - 1))%Q.
Proof.
  unfold rank. pose proof last_index_nonneg as H.
  setoid_replace (inject_Z (Z.of_nat n - 1)) with (1 * inject_Z (Z.of_nat n - 1))%Q at 2
    by ring.
  apply Qmult_le_compat_r; assumption.
Qed.

Lemma floor_rank_bounds : (0 <= Qfloor rank <= Z.of_nat n - 1)%Z.
Proof.
  split.
  - rewrite <- (Qfloor_Z 0). apply Qfloor_resp_le, rank_nonneg.
  - rewrite <- (Qfloor_Z (Z.of_nat n - 1)). apply Qfloor_resp_le, rank_le_last.
Qed.


Lemma gamma_bounds :
  (0 <= rank - inject_Z (Qfloor rank))%Q /\ (rank - inject_Z (Qfloor rank) <= 1)%Q.
Proof.
  pose proof (Qfloor_le rank) as H1. pose proof (Qlt_floor rank) as H2.
  rewrite inject_Z_plus in H2. change (inject_Z 1) with 1%Q in H2.
  split; lra.
Qed.
End RankFacts.

(** [quantile] on the sorted sample, with the interpolation spelled out. *)
Lemma quantile_unfold (xs : list Q) (q : Q) :
  let s := sort Qle_bool xs in
  let rank := (q * inject_Z (Z.of_nat (List.length s) - 1))%Q in
  let lo := Z.to_nat (Qfloor rank) in
  let hi := Nat.min (lo + 1) (List.length s - 1) in
  (quantile xs q == nth lo s 0 + (nth hi s 0 - nth lo s 0) * (rank - inject_Z (Qfloor rank)))%Q.
Proof. unfold quantile. apply lerp_eq. Qed.


(** Percentiles grow with the fraction. *)
Lemma quantile_mono (xs : list Q) (q1 q2 : Q) :
  xs <> [] -> (0 <= q1)%Q -> (q1 <= q2)%Q -> (q2 <= 1)%Q ->
  (quantile xs q1 <= quantile xs q2)%Q.
Proof.
  intros Hne H0 H12 H1.
  rewrite !quantile_unfold. cbv zeta.
  pose proof (sort_Qle_sorted xs) as Hs.
  rewrite (sort_length Qle_bool xs).
  assert (0 < List.length xs) as Hn by (destruct xs; [contradiction|simpl; lia]).
  pose proof (sort_length Qle_bool xs) as Hlen.
  set (s := sort Qle_bool xs) in *.
  set (m := inject_Z (Z.of_nat (List.length xs) - 1)).
  assert (0 <= m)%Q as Hm by (apply last_index_nonneg; exact Hn).
  assert (0 <= q2)%Q as H02 by lra. assert (q1 <= 1)%Q as H11 by lra.
  pose proof (floor_rank_bounds _ q1 Hn H0 H11) as Hf1.
  pose proof (floor_rank_bounds _ q2 Hn H02 H1) as Hf2.
  pose proof (gamma_bounds (List.length xs) q1) as [Hg1 Hg1'].
  pose proof (gamma_bounds (List.length xs) q2) as [Hg2 Hg2'].
  fold m in Hf1, Hf2, Hg1, Hg1', Hg2, Hg2'.
  assert (q1 * m <= q2 * m)%Q as Hr by (apply Qmult_le_compat_r; assumption).
  pose proof (Qfloor_resp_le _ _ Hr) as Hfl.
  set (f1 := Qfloor (q1 * m)) in *. set (f2 := Qfloor (q2 * m)) in *.
  set (g1 := (q1 * m - inject_Z f1)%Q) in *.
  set (g2 := (q2 * m - inject_Z f2)%Q) in *.
  set (lo1 := Z.to_nat f1). set (lo2 := Z.to_nat f2).
  set (hi1 := Nat.min (lo1 + 1) (List.length xs - 1)).
  set (hi2 := Nat.min (lo2 + 1) (List.length xs - 1)).
  assert (nth lo1 s 0 <= nth hi1 s 0)%Q as Hab1
    by (apply sorted_nth_le; [exact Hs|subst hi1 lo1; lia|rewrite Hlen; subst hi1; lia]).
  assert (nth lo2 s 0 <= nth hi2 s 0)%Q as Hab2
    by (apply sorted_nth_le; [exact Hs|subst hi2 lo2; lia|rewrite Hlen; subst hi2; lia]).
  destruct (Z.eq_dec f1 f2) as [E|N].
  - assert (g1 <= g2)%Q as Hg by (subst g1 g2; rewrite E; lra).
    subst lo1 lo2 hi1 hi2. rewrite E in *.
    apply Qplus_le_r. apply Qmult_le_nonneg_l; [lra|exact Hg].
  - assert (nth hi1 s 0 <= nth lo2 s 0)%Q as Hcross
      by (apply sorted_nth_le; [exact Hs|subst hi1 lo1 lo2; lia|rewrite Hlen; subst lo2; lia]).
    assert (0 <= (nth hi2 s 0 - nth lo2 s 0) * g2)%Q
      by (apply Qmult_le_0_compat; lra).
    assert ((nth hi1 s 0 - nth lo1 s 0) * g1 <= (nth hi1 s 0 - nth lo1 s 0) * 1)%Q
      by (apply Qmult_le_nonneg_l; [lra|exact Hg1']).
    lra.
Qed.

(** On a constant sample every percentile is that constant. *)
Lemma quantile_const (xs : list Q) (q t : Q) :
  xs <> [] -> (0 <= q)%Q -> (q <= 1)%Q ->
  (forall x, In x xs -> (x == t)%Q) -> (quantile xs q == t)%Q.
Proof.
  intros Hne Hlo Hhi Hall.
  rewrite quantile_unfold. cbv zeta.
  assert (0 < List.length xs) as Hn by (destruct xs; [contradiction|simpl; lia]).
  pose proof (sort_length Qle_bool xs) as Hlen. rewrite Hlen.
  pose proof (floor_rank_bounds _ q Hn Hlo Hhi) as Hf.
  set (rank := (q * inject_Z (Z.of_nat (List.length xs) - 1))%Q) in *.
  assert (forall i, i < List.length xs -> (nth i (sort Qle_bool xs) 0 == t)%Q) as Hnth.
  { intros i Hi. apply Hall, (sort_In Qle_bool), nth_In. lia. }
  rewrite (Hnth (Z.to_nat (Qfloor rank))) by lia.
  rewrite (Hnth (Nat.min _ _)) by lia.
  ring.
Qed.

Lemma in_band_iff (lo hi : Q) (r : reading) :
  in_band lo hi r = true <-> (lo <= rtemp r)%Q /\ (rtemp r <= hi)%Q.
Proof. unfold in_band. rewrite andb_true_iff, !Qle_bool_iff. tauto. Qed.

Lemma clean_temperature_nonempty (df : list reading) (ti : xcom) :
  df <> [] ->
  let v5 := quantile (map rtemp df) (5 # 100) in
  let v95 := quantile (map rtemp df) (95 # 100) in
  let out := filter (in_band v5 v95) df in
  clean_temperature df ti =
    Ok (out, push_cleaned_rows (len out) (push_p95 v95 (push_p5 v5
               (push_outliers_removed (len df - len out) ti)))).
Proof.
  intros Hne. unfold clean_temperature.
  destruct (List.length df =? 0)%nat eqn:E; [|reflexivity].
  apply length_zero_nil in E. contradiction.
Qed.

Lemma clean_temperature_empty (ti : xcom) : clean_temperature [] ti = Err EmptyInput.
Proof. reflexivity. Qed.



(** The percentiles of 10, 20, 30 are 11 and 29; only 20 lies between. *)
Example sample_filtered_cleaned :
  exists out ti',
    clean_temperature sample_filtered xcom_empty = Ok (out, ti')
    /\ map rtemp out = [20%Q]
    /\ (exists a b, p5 ti' = Some a /\ p95 ti' = Some b /\ (a == 11)%Q /\ (b == 29)%Q)
    /\ outliers_removed ti' = Some 2%Z.
Proof.
  eexists _, _. split; [reflexivity|]. split; [reflexivity|].
  split; [|reflexivity].
  eexists _, _. split; [reflexivity|]. split; [reflexivity|]. split; reflexivity.
Qed.



(** With one temperature throughout, both percentiles are that value and
    every row is kept. *)
Example constant_temperature :
  let df := [ mkReading (row "01-01-2026 10:00" 21 "In") (mkDate 2026 1 1);
              mkReading (row "02-01-2026 10:00" 21 "In") (mkDate 2026 1 2) ] in
  exists ti' a b,
    clean_temperature df xcom_empty = Ok (df, ti')
    /\ p5 ti' = Some a /\ p95 ti' = Some b /\ (a == 21)%Q /\ (b == 21)%Q.
Proof.
  eexists _, _, _. split; [reflexivity|]. split; [reflexivity|].
  split; [reflexivity|]. split; reflexivity.
Qed.

(** ** Task 3 *)

Lemma Date_eqb_eq (a b : Date) : Date_eqb a b = true <-> a = b.
Proof.
  unfold Date_eqb. rewrite !andb_true_iff, !Nat.eqb_eq.
  destruct a, b; simpl. split.
  - intros [[-> ->] ->]. reflexivity.
  - intros E. injection E as -> -> ->. auto.
Qed.

Lemma avg_geb_sorted (l : list daily) :
  StronglySorted (fun a b => (avg_temp b <= avg_temp a)%Q) (sort avg_geb l).
Proof.
  apply sort_sorted; unfold avg_geb.
  - intros a b. apply Qle_bool_imp_le.
  - intros a b E. destruct (Qlt_le_dec (avg_temp a) (avg_temp b)) as [Hlt|Hle].
    + now apply Qlt_le_weak.
    + apply Qle_bool_iff in Hle. congruence.
  - intros a b c H1 H2. eapply Qle_trans; eauto.
Qed.

Lemma avg_leb_sorted (l : list daily) :
  StronglySorted (fun a b => (avg_temp a <= avg_temp b)%Q) (sort avg_leb l).
Proof.
  apply sort_sorted; unfold avg_leb.
  - intros a b. apply Qle_bool_imp_le.
  - intros a b E. destruct (Qlt_le_dec (avg_temp b) (avg_temp a)) as [Hlt|Hle].
    + now apply Qlt_le_weak.
    + apply Qle_bool_iff in Hle. congruence.
  - intros a b c H1 H2. eapply Qle_trans; eauto.
Qed.

Lemma daily_stats_dates (df : list reading) :
  map d_date (daily_stats df) = sort Date_leb (unique Date_eqb (map date df)).
Proof.
  unfold daily_stats. rewrite map_map. simpl. apply map_id.
Qed.








Lemma calculate_extreme_days_nonempty (df : list reading) (ti : xcom) :
  df <> [] ->
  calculate_extreme_days df ti =
    Ok (nlargest 5 (daily_stats df), nsmallest 5 (daily_stats df),
        push_coldest_days (nsmallest 5 (daily_stats df))
          (push_hottest_days (nlargest 5 (daily_stats df)) ti)).
Proof.
  intros Hne. unfold calculate_extreme_days.
  destruct (List.length df =? 0)%nat eqn:E; [|reflexivity].
  apply length_zero_nil in E. contradiction.
Qed.



(** Three dates give rankings of three entries. *)
Example sample_cleaned_rankings :
  exists hottest coldest ti',
    calculate_extreme_days sample_cleaned xcom_empty = Ok (hottest, coldest, ti')
    /\ map d_date hottest = [mkDate 2026 1 3; mkDate 2026 1 1; mkDate 2026 1 2]
    /\ map d_date coldest = [mkDate 2026 1 2; mkDate 2026 1 1; mkDate 2026 1 3]
    /\ Forall2 Qeq (map avg_temp hottest) [25; 21; 19]%Q.
Proof.
  eexists _, _, _. split; [reflexivity|]. split; [reflexivity|].
  split; [reflexivity|]. repeat constructor.
Qed.

Lemma calculate_extreme_days_empty (ti : xcom) :
  calculate_extreme_days [] ti = Err EmptyInput.
Proof. reflexivity. Qed.

(** ** An empty cleaned frame *)



(** C10. A non-empty filtered frame can leave nothing after cleaning:
    for the two rows at 10 and 20 degrees the band is [10.5, 19.5], task 2
    returns an empty cleaned frame and pushes [cleaned_rows = 0], and
    task 3 on that frame raises its empty-input exception, so the DAG run
    on the corresponding CSV stops there. *)
Theorem cleaner_can_return_empty_frame :
  exists (df : list reading) (ti' : xcom) (a b : Q),
    df <> []
    /\ load_and_filter_data two_row_csv xcom_empty
       = Ok (df, push_total_rows 2 (push_filtered_rows 2 xcom_empty))
    /\ clean_temperature df (push_total_rows 2 (push_filtered_rows 2 xcom_empty))
       = Ok ([], ti')
    /\ p5 ti' = Some a /\ p95 ti' = Some b
    /\ (a == 105 # 10)%Q /\ (b == 195 # 10)%Q
    /\ cleaned_rows ti' = Some 0%Z
    /\ outliers_removed ti' = Some 2%Z
    /\ calculate_extreme_days [] ti' = Err EmptyInput
    /\ run_dag sample_now two_row_csv = Err EmptyInput.
Proof.
  exists two_row_filtered. eexists _, _, _.
  split; [discriminate|]. split; [reflexivity|]. split; [reflexivity|].
  split; [reflexivity|]. split; [reflexivity|]. split; [reflexivity|].
  split; [reflexivity|]. split; [reflexivity|]. split; [reflexivity|].
  split; reflexivity.
Qed.

(** ** The whole run *)

(** C6. When the DAG runs to completion the pushed counts satisfy
    [cleaned_rows <= filtered_rows <= total_rows]. *)
Theorem row_counts_monotone :
  forall (now : string) (csv : list raw_reading) (ti : xcom) (report : string),
    run_dag now csv = Ok (ti, report) ->
    exists c f t : Z,
      cleaned_rows ti = Some c /\ filtered_rows ti = Some f /\ total_rows ti = Some t
      /\ (0 <= c <= f)%Z /\ (f <= t)%Z
      /\ t = len csv.
Proof.
  intros now csv ti report Hrun. unfold run_dag in Hrun.
  destruct (load_and_filter_data_cases csv xcom_empty) as [[_ E]|[_ E]];
    rewrite E in Hrun; simpl in Hrun; [discriminate|].
  set (filtered := dropna_date (assign_date (filter_in csv))) in *.
  destruct filtered as [|r0 rest] eqn:Ef; [discriminate|].
  rewrite clean_temperature_nonempty in Hrun by discriminate.
  cbv zeta in Hrun. rewrite <- Ef in Hrun.
  set (cleaned := filter _ filtered) in *. simpl bind in Hrun.
  destruct cleaned as [|c0 crest] eqn:Ec; [discriminate|].
  rewrite calculate_extreme_days_nonempty in Hrun by discriminate.
  simpl bind in Hrun.
  destruct (generate_report now _) as [rep|e]; simpl in Hrun; [|discriminate].
  injection Hrun as <- _.
  eexists _, _, _. split; [reflexivity|]. split; [reflexivity|]. split; [reflexivity|].
  assert (List.length cleaned <= List.length filtered) as H1
    by (subst cleaned; apply filter_length_le).
  assert (List.length filtered <= List.length (filter_in csv)) as H2
    by (subst filtered; apply dropna_date_length).
  assert (List.length (filter_in csv) <= List.length csv) as H3
    by (apply filter_length_le).
  rewrite <- Ec. unfold len. rewrite Ef in *. split; [lia|]. split; [lia|reflexivity].
Qed.

Lemma row_counts_monotone_witness :
  exists (ti : xcom) (report : string),
    run_dag sample_now sample_csv = Ok (ti, report)
    /\ exists c f t : Z,
         cleaned_rows ti = Some c /\ filtered_rows ti = Some f /\ total_rows ti = Some t
         /\ (0 <= c <= f)%Z /\ (f <= t)%Z
         /\ t = len sample_csv.
Proof.
  assert ({p : xcom * string | run_dag sample_now sample_csv = Ok p}) as [[ti report] H]
    by (eexists; vm_compute; reflexivity).
  exists ti, report. split; [exact H|].
  exact (row_counts_monotone sample_now sample_csv ti report H).
Defined.

(** The sample run: six raw rows, four filtered, two cleaned. *)
Example sample_run_counts :
  exists ti report,
    run_dag sample_now sample_csv = Ok (ti, report)
    /\ total_rows ti = Some 6%Z /\ filtered_rows ti = Some 4%Z
    /\ cleaned_rows ti = Some 2%Z /\ outliers_removed ti = Some 2%Z.
Proof.
  eexists _, _. split; [vm_compute; reflexivity|].
  split; [reflexivity|]. split; [reflexivity|]. split; reflexivity.
Qed.

(** ** Task 4 *)

(** *** Occurrence of a text in a text *)

Lemma append_assoc (a b c : string) : (a ++ b) ++ c = a ++ (b ++ c).
Proof. induction a as [|x a IH]; simpl; [reflexivity|now rewrite IH]. Qed.

Lemma append_nil_r (a : string) : a ++ "" = a.
Proof. induction a as [|x a IH]; simpl; [reflexivity|now rewrite IH]. Qed.

Lemma starts_with_iff (p s : string) :
  starts_with p s = true <-> exists r, s = p ++ r.
Proof.
  revert s. induction p as [|a p IH]; intros s; simpl.
  - split; [intros _; now exists s|reflexivity].
  - destruct s as [|b s].
    + split; [discriminate|intros [r Hr]; discriminate].
    + rewrite andb_true_iff, Ascii.eqb_eq, IH. split.
      * intros [-> [r ->]]. now exists r.
      * intros [r Hr]. injection Hr as -> ->. split; [reflexivity|now exists r].
Qed.

Lemma contains_iff (p s : string) : contains p s = true <-> occurs_in p s.
Proof.
  unfold occurs_in. induction s as [|c s IH]; simpl.
  - rewrite orb_false_r, starts_with_iff. split.
    + intros [r Hr]. now exists "", r.
    + intros [a [b H]]. destruct a; [now exists b|discriminate].
  - rewrite orb_true_iff, starts_with_iff, IH. split.
    + intros [[r Hr]|[a [b H]]].
      * now exists "", r.
      * exists (String c a), b. simpl. now rewrite H.
    + intros [a [b H]]. destruct a as [|x a].
      * left. now exists b.
      * right. simpl in H. injection H as _ ->. now exists a, b.
Qed.

Lemma occurs_in_refl (p : string) : occurs_in p p.
Proof. exists "", "". simpl. now rewrite append_nil_r. Qed.

Lemma occurs_in_app_l (p s t : string) : occurs_in p s -> occurs_in p (s ++ t).
Proof.
  intros [a [b ->]]. exists a, (b ++ t). now rewrite !append_assoc.
Qed.

Lemma occurs_in_app_r (p s t : string) : occurs_in p s -> occurs_in p (t ++ s).
Proof.
  intros [a [b ->]]. exists (t ++ a), b. now rewrite !append_assoc.
Qed.

Lemma occurs_in_trans (p q s : string) :
  occurs_in p q -> occurs_in q s -> occurs_in p s.
Proof.
  intros [a [b ->]] [c [d ->]]. exists (c ++ a), (b ++ d).
  now rewrite !append_assoc.
Qed.

Lemma occurs_in_join (sep x : string) (l : list string) :
  In x l -> occurs_in x (join sep l).
Proof.
  induction l as [|y t IH]; [contradiction|].
  intros [->|Hin].
  - destruct t; simpl; [apply occurs_in_refl|apply occurs_in_app_l, occurs_in_refl].
  - specialize (IH Hin). destruct t as [|z t]; [contradiction|].
    change (join sep (y :: z :: t)) with (y ++ sep ++ join sep (z :: t)).
    now apply occurs_in_app_r, occurs_in_app_r.
Qed.

Lemma enumerate_from_In {A : Type} (l : list A) (k i : nat) (x : A) :
  nth_error l i = Some x -> In (k + i, x) (enumerate_from k l).
Proof.
  revert k i. induction l as [|y t IH]; intros k [|i] H; simpl in *; try discriminate.
  - injection H as ->. left. f_equal. lia.
  - right. replace (k + S i) with (S k + i) by lia. now apply IH.
Qed.

(** *** Two decimal places *)

Lemma round_half_even_near (q : Q) :
  (Qabs (q - inject_Z (round_half_even q)) <= 1 # 2)%Q.
Proof.
  unfold round_half_even.
  pose proof (Qfloor_le q) as H1. pose proof (Qlt_floor q) as H2.
  rewrite inject_Z_plus in H2. change (inject_Z 1) with 1%Q in H2.
  set (f := Qfloor q) in *.
  destruct (Qcompare (q - inject_Z f) (1 # 2)) eqn:E.
  - apply Qeq_alt in E.
    destruct (Z.even f); [|rewrite inject_Z_plus; change (inject_Z 1) with 1%Q];
      apply Qabs_Qle_condition; split; lra.
  - apply Qlt_alt in E. apply Qabs_Qle_condition; split; lra.
  - apply Qgt_alt in E. rewrite inject_Z_plus. change (inject_Z 1) with 1%Q.
    apply Qabs_Qle_condition; split; lra.
Qed.

Lemma round_half_even_nonneg (q : Q) : (0 <= q)%Q -> (0 <= round_half_even q)%Z.
Proof.
  intros Hq. unfold round_half_even.
  assert (0 <= Qfloor q)%Z by (rewrite <- (Qfloor_Z 0); now apply Qfloor_resp_le).
  destruct (Qcompare _ _); [destruct (Z.even _)| |]; lia.
Qed.

Lemma two_digits (z : Z) :
  (0 <= z < 100)%Z ->
  exists a b : ascii,
    zfill 2 (show_Z z) = String a (String b EmptyString)
    /\ is_digit a = true /\ is_digit b = true
    /\ z = Z.of_nat (10 * digit_val a + digit_val b).
Proof.
  intros Hz.
  assert (forallb two_digit_check (seq 0 100) = true) as Hall by (vm_compute; reflexivity).
  rewrite forallb_forall in Hall.
  specialize (Hall (Z.to_nat z)). rewrite in_seq in Hall.
  specialize (Hall ltac:(lia)). unfold two_digit_check, show_nat in Hall.
  rewrite Z2Nat.id in Hall by lia.
  destruct (zfill 2 (show_Z z)) as [|a [|b [|]]]; try discriminate.
  rewrite !andb_true_iff, Nat.eqb_eq in Hall. destruct Hall as [[Ha Hb] Hv].
  exists a, b. repeat split; try assumption. lia.
Qed.

Lemma format_2f_two_decimals (q : Q) : two_decimals q (format_2f q).
Proof.
  unfold two_decimals, format_2f.
  set (h := hundredths q).
  assert (0 <= h)%Z as Hh.
  { apply round_half_even_nonneg. apply Qmult_le_0_compat; [apply Qabs_nonneg|lra]. }
  destruct (two_digits (h mod 100)) as [a [b [E [Ha [Hb Hv]]]]].
  { apply Z.mod_pos_bound. lia. }
  exists h, a, b. split; [exact Hh|]. split; [apply round_half_even_near|].
  rewrite E. auto.
Qed.

(** *** The report *)

Lemma generate_report_ok (now : string) (ti : xcom)
      (t f : Z) (a b : Q) (hot cold : list daily) :
  total_rows ti = Some t -> filtered_rows ti = Some f ->
  p5 ti = Some a -> p95 ti = Some b ->
  hottest_days ti = Some hot -> coldest_days ti = Some cold ->
  t <> 0%Z ->
  generate_report now ti =
    Ok (nl ++ join nl
                (report_lines now (show_Z t) (show_Z f)
                   (format_2f (inject_Z f / inject_Z t * 100))
                   (format_2f a) (format_2f b)
                   (show_opt (outliers_removed ti)) (show_opt (cleaned_rows ti))
                   (join nl (map day_line (enumerate hot)))
                   (join nl (map day_line (enumerate cold))))
           ++ nl).
Proof.
  intros Ht Hf Ha Hb Hhot Hcold Hnz. unfold generate_report.
  rewrite Ht, Hf, Ha, Hb, Hhot, Hcold. unfold percent.
  destruct (t =? 0)%Z eqn:E; [apply Z.eqb_eq in E; contradiction|].
  reflexivity.
Qed.

Lemma generate_report_fails (now : string) (ti : xcom) :
  total_rows ti = None \/ filtered_rows ti = None \/ p5 ti = None \/ p95 ti = None
  \/ hottest_days ti = None \/ coldest_days ti = None ->
  generate_report now ti = Err TypeError
  \/ (generate_report now ti = Err ZeroDivisionError
      /\ total_rows ti = Some 0%Z /\ filtered_rows ti <> None).
Proof.
  intros H. unfold generate_report, percent.
  destruct (filtered_rows ti) as [f|]; [|now left].
  destruct (total_rows ti) as [t|]; [|now left].
  destruct (t =? 0)%Z eqn:E.
  { apply Z.eqb_eq in E. subst. right. repeat split. discriminate. }
  simpl bind.
  destruct (p5 ti); [|now left]. simpl bind.
  destruct (p95 ti); [|now left]. simpl bind.
  destruct (hottest_days ti); [|now left]. simpl bind.
  destruct (coldest_days ti); [|now left].
  destruct H as [H|[H|[H|[H|[H|H]]]]]; discriminate.
Qed.

Lemma report_line_occurs (x : string) (l : list string) :
  In x l -> occurs_in x (nl ++ join nl l ++ nl).
Proof.
  intros H. apply occurs_in_app_r, occurs_in_app_l. now apply occurs_in_join.
Qed.

(** A line strictly inside a joined text has a newline on both sides. *)
Lemma join_inner_line (x : string) (l1 l2 : list string) :
  l1 <> [] -> l2 <> [] ->
  occurs_in (nl ++ x ++ nl) (join nl (l1 ++ x :: l2)%list).
Proof.
  intros H1 H2. induction l1 as [|y t IH]; [contradiction|].
  destruct t as [|z t].
  - destruct l2 as [|w l2]; [contradiction|].
    change (join nl ([y] ++ x :: w :: l2)%list)
      with (y ++ nl ++ x ++ nl ++ join nl (w :: l2)).
    exists y, (join nl (w :: l2)). now rewrite !append_assoc.
  - change (join nl ((y :: z :: t) ++ x :: l2)%list)
      with (y ++ nl ++ join nl ((z :: t) ++ x :: l2)%list).
    apply occurs_in_app_r, occurs_in_app_r, IH. discriminate.
Qed.

Lemma inner_line_split (x : string) (l : list string) :
  inner_line x l -> exists l1 l2, l1 <> [] /\ l2 <> [] /\ l = (l1 ++ x :: l2)%list.
Proof.
  induction 1 as [a b l|a l H [l1 [l2 [H1 [H2 ->]]]]].
  - exists [a], (b :: l). repeat split; discriminate.
  - exists (a :: l1), l2. repeat split; [discriminate|exact H2].
Qed.

Lemma line_alone_occurs (x : string) (l : list string) :
  inner_line x l -> occurs_in (nl ++ x ++ nl) (nl ++ join nl l ++ nl).
Proof.
  intros H. apply inner_line_split in H. destruct H as [l1 [l2 [H1 [H2 ->]]]].
  apply occurs_in_app_r, occurs_in_app_l. now apply join_inner_line.
Qed.

Ltac find_line := simpl; repeat (first [left; reflexivity | right]).
Ltac find_inner_line :=
  unfold report_lines; repeat (first [apply inner_here | apply inner_later]).

Lemma day_line_occurs (days : list daily) (i : nat) (d : daily) :
  nth_error days i = Some d ->
  occurs_in (day_line (i, d)) (join nl (map day_line (enumerate days))).
Proof.
  intros H. apply occurs_in_join, in_map. unfold enumerate.
  exact (enumerate_from_In days 0 i d H).
Qed.

(** C9, amended. For every complete set of facts with a non-zero
    [total_rows], task 4 returns a report that contains the two row
    counts, the filter percentage [filtered_rows / total_rows * 100] with
    two decimals, [p5] and [p95] with two decimals, the outlier count (on
    a line of its own: the count and nothing else), the cleaned row count,
    and one entry per ranked day, numbered from 1, with its date and its
    average with two decimals. *)
Theorem report_contents :
  forall (now : string) (t f o c : Z) (a b : Q) (hot cold : list daily),
    t <> 0%Z ->
    exists (report s_pct s5 s95 : string),
      generate_report now (complete_facts t f o a b c hot cold) = Ok report
      /\ two_decimals (inject_Z f / inject_Z t * 100) s_pct
      /\ two_decimals a s5 /\ two_decimals b s95
      /\ occurs_in (nl ++ ("  - Всего записей: " ++ show_Z t) ++ nl) report
      /\ occurs_in (nl ++ ("  - Записей после фильтрации (out/in = 'In'): " ++ show_Z f) ++ nl)
                   report
      /\ occurs_in (nl ++ ("  - Процент отфильтрованных: " ++ s_pct ++ "%") ++ nl) report
      /\ occurs_in (nl ++ ("  - 5-й перцентиль: " ++ s5 ++ "°C") ++ nl) report
      /\ occurs_in (nl ++ ("  - 95-й перцентиль: " ++ s95 ++ "°C") ++ nl) report
      /\ occurs_in (nl ++ ("  - Удалено выбросов: " ++ show_Z o) ++ nl) report
      /\ occurs_in (nl ++ ("  - Осталось записей после очистки: " ++ show_Z c) ++ nl) report
      /\ (forall i d, nth_error hot i = Some d \/ nth_error cold i = Some d ->
            exists avg, two_decimals (avg_temp d) avg
                        /\ occurs_in (ranking_entry i d avg) report).
Proof.
  intros now t f o c a b hot cold Hnz.
  eexists _, (format_2f (inject_Z f / inject_Z t * 100)), (format_2f a), (format_2f b).
  split.
  { apply (generate_report_ok now _ t f a b hot cold); try reflexivity. exact Hnz. }
  split; [apply format_2f_two_decimals|].
  split; [apply format_2f_two_decimals|].
  split; [apply format_2f_two_decimals|].
  cbn [outliers_removed cleaned_rows complete_facts show_opt].
  set (H := join nl (map day_line (enumerate hot))).
  set (C := join nl (map day_line (enumerate cold))).
  repeat match goal with
         | |- occurs_in (nl ++ ?x ++ nl) _ /\ _ => split; [apply line_alone_occurs; find_inner_line|]
         end.
  intros i d [Hd|Hd]; exists (format_2f (avg_temp d));
    (split; [apply format_2f_two_decimals|]).
  - apply (occurs_in_trans _ H).
    + apply (day_line_occurs hot i d Hd).
    + apply report_line_occurs. find_line.
  - apply (occurs_in_trans _ C).
    + apply (day_line_occurs cold i d Hd).
    + apply report_line_occurs. find_line.
Qed.

Lemma report_contents_witness :
  exists (report s_pct s5 s95 : string),
    generate_report sample_now
      (complete_facts 6 4 2 (283 # 10) (3178 # 100) 2
         [mkDaily (mkDate 2026 1 3) (61 # 2)] [mkDaily (mkDate 2026 1 1) 30])
    = Ok report
    /\ two_decimals (inject_Z 4 / inject_Z 6 * 100) s_pct
    /\ two_decimals (283 # 10) s5 /\ two_decimals (3178 # 100) s95
    /\ occurs_in (nl ++ ("  - Всего записей: " ++ show_Z 6) ++ nl) report
    /\ occurs_in (nl ++ ("  - Записей после фильтрации (out/in = 'In'): " ++ show_Z 4) ++ nl)
                 report
    /\ occurs_in (nl ++ ("  - Процент отфильтрованных: " ++ s_pct ++ "%") ++ nl) report
    /\ occurs_in (nl ++ ("  - 5-й перцентиль: " ++ s5 ++ "°C") ++ nl) report
    /\ occurs_in (nl ++ ("  - 95-й перцентиль: " ++ s95 ++ "°C") ++ nl) report
    /\ occurs_in (nl ++ ("  - Удалено выбросов: " ++ show_Z 2) ++ nl) report
    /\ occurs_in (nl ++ ("  - Осталось записей после очистки: " ++ show_Z 2) ++ nl) report
    /\ (forall i d,
          nth_error [mkDaily (mkDate 2026 1 3) (61 # 2)] i = Some d
          \/ nth_error [mkDaily (mkDate 2026 1 1) 30] i = Some d ->
          exists avg, two_decimals (avg_temp d) avg
                      /\ occurs_in (ranking_entry i d avg) report).
Proof.
  apply (report_contents sample_now 6 4 2 2 (283 # 10) (3178 # 100)
           [mkDaily (mkDate 2026 1 3) (61 # 2)] [mkDaily (mkDate 2026 1 1) 30]).
  discriminate.
Defined.

(** C9 as stated fails: in the report of a complete run that removed one
    of eight filtered rows, the outlier percentage 12.5 is nowhere: not
    with two decimals, and not even its integer digits, truncated or
    rounded up. And a complete set of facts whose [total_rows] is 0 gives
    no report at all: the filter percentage divides by zero. *)
Lemma report_lacks_outlier_percentage :
  (exists (ti : xcom) (report : string) (o f : Z),
     run_dag sample_now outlier_csv = Ok (ti, report)
     /\ outliers_removed ti = Some o /\ filtered_rows ti = Some f
     /\ (inject_Z o / inject_Z f * 100 == 125 # 10)%Q
     /\ ~ occurs_in (format_2f (inject_Z o / inject_Z f * 100)) report
     /\ ~ occurs_in "12" report /\ ~ occurs_in "13" report)
  /\ generate_report sample_now (complete_facts 0 0 0 20 20 0 [] []) = Err ZeroDivisionError.
Proof.
  split; [|reflexivity].
  assert ({p : xcom * string | run_dag sample_now outlier_csv = Ok p}) as [[ti report] H]
    by (eexists; vm_compute; reflexivity).
  exists ti, report, 1%Z, 8%Z.
  split; [exact H|].
  vm_compute in H. injection H as <- <-.
  split; [reflexivity|]. split; [reflexivity|]. split; [reflexivity|].
  split; [|split]; rewrite <- contains_iff; vm_compute; discriminate.
Qed.

(** ** Missing facts *)

(** C8 as stated fails: with every fact pushed except [outliers_removed],
    task 4 does not raise; it writes a report with the text [None] where
    the count belongs. *)
Lemma report_without_outliers_removed :
  let ti := mkXcom (Some 10%Z) (Some 8%Z) None (Some (1025 # 100)%Q) (Some 20%Q)
                   (Some 7%Z) (Some [mkDaily (mkDate 2026 1 1) 20])
                   (Some [mkDaily (mkDate 2026 1 1) 20]) in
  outliers_removed ti = None
  /\ exists report,
       generate_report sample_now ti = Ok report
       /\ occurs_in (nl ++ "  - Удалено выбросов: None" ++ nl) report.
Proof.
  split; [reflexivity|]. eexists. split; [reflexivity|].
  rewrite <- contains_iff. vm_compute. reflexivity.
Qed.

(** C8, amended. Task 4 has no test for missing facts. When [total_rows],
    [filtered_rows], [p5], [p95], [hottest_days] or [coldest_days] was not
    pushed, the rendering raises: a type error, or a division by zero when
    both counts are there and [total_rows] is 0. When those six are there
    and [total_rows] is not 0, the task returns a report whether or not
    [outliers_removed] and [cleaned_rows] were pushed; a missing one is
    rendered as [None]. *)
Theorem generate_report_missing_fact :
  forall (now : string) (ti : xcom),
    (total_rows ti = None \/ filtered_rows ti = None \/ p5 ti = None \/ p95 ti = None
     \/ hottest_days ti = None \/ coldest_days ti = None ->
     generate_report now ti = Err TypeError
     \/ (generate_report now ti = Err ZeroDivisionError
         /\ total_rows ti = Some 0%Z /\ filtered_rows ti <> None))
    /\ (forall t f a b hot cold,
          total_rows ti = Some t -> filtered_rows ti = Some f ->
          p5 ti = Some a -> p95 ti = Some b ->
          hottest_days ti = Some hot -> coldest_days ti = Some cold ->
          t <> 0%Z ->
          exists report,
            generate_report now ti = Ok report
            /\ occurs_in (nl ++ ("  - Удалено выбросов: "
                                   ++ match outliers_removed ti with
                                      | Some o => show_Z o
                                      | None => "None"
                                      end) ++ nl) report
            /\ occurs_in (nl ++ ("  - Осталось записей после очистки: "
                                   ++ match cleaned_rows ti with
                                      | Some c => show_Z c
                                      | None => "None"
                                      end) ++ nl) report).
Proof.
  intros now ti. split; [apply generate_report_fails|].
  intros t f a b hot cold Ht Hf Ha Hb Hhot Hcold Hnz.
  eexists. split; [apply (generate_report_ok now ti t f a b hot cold); assumption|].
  split; apply line_alone_occurs; find_inner_line.
Qed.

Lemma generate_report_missing_fact_witness :
  generate_report sample_now
    (mkXcom (Some 10%Z) (Some 8%Z) (Some 1%Z) None (Some 20%Q) (Some 7%Z)
            (Some []) (Some []))
  = Err TypeError
  \/ (generate_report sample_now
        (mkXcom (Some 10%Z) (Some 8%Z) (Some 1%Z) None (Some 20%Q) (Some 7%Z)
                (Some []) (Some []))
      = Err ZeroDivisionError
      /\ total_rows (mkXcom (Some 10%Z) (Some 8%Z) (Some 1%Z) None (Some 20%Q) (Some 7%Z)
                            (Some []) (Some [])) = Some 0%Z
      /\ filtered_rows (mkXcom (Some 10%Z) (Some 8%Z) (Some 1%Z) None (Some 20%Q) (Some 7%Z)
                               (Some []) (Some [])) <> None).
Proof.
  apply (proj1 (generate_report_missing_fact sample_now
                  (mkXcom (Some 10%Z) (Some 8%Z) (Some 1%Z) None (Some 20%Q) (Some 7%Z)
                          (Some []) (Some [])))).
  right. right. left. reflexivity.
Defined.

(** Each of the six facts, missing alone, makes the task raise. *)
Example each_needed_fact_missing :
  let hot := [mkDaily (mkDate 2026 1 1) 20] in
  generate_report sample_now
    (mkXcom None (Some 8%Z) (Some 1%Z) (Some 10%Q) (Some 20%Q) (Some 7%Z) (Some hot) (Some hot))
  = Err TypeError
  /\ generate_report sample_now
    (mkXcom (Some 10%Z) None (Some 1%Z) (Some 10%Q) (Some 20%Q) (Some 7%Z) (Some hot) (Some hot))
  = Err TypeError
  /\ generate_report sample_now
    (mkXcom (Some 10%Z) (Some 8%Z) (Some 1%Z) None (Some 20%Q) (Some 7%Z) (Some hot) (Some hot))
  = Err TypeError
  /\ generate_report sample_now
    (mkXcom (Some 10%Z) (Some 8%Z) (Some 1%Z) (Some 10%Q) None (Some 7%Z) (Some hot) (Some hot))
  = Err TypeError
  /\ generate_report sample_now
    (mkXcom (Some 10%Z) (Some 8%Z) (Some 1%Z) (Some 10%Q) (Some 20%Q) (Some 7%Z) None (Some hot))
  = Err TypeError
  /\ generate_report sample_now
    (mkXcom (Some 10%Z) (Some 8%Z) (Some 1%Z) (Some 10%Q) (Some 20%Q) (Some 7%Z) (Some hot) None)
  = Err TypeError.
Proof. repeat split. Qed.

(** * Further properties of the tasks *)

(** ** Task 2: where the percentiles lie *)





(** ** Task 2: when nothing is left, and when nothing is removed *)

Lemma filter_all {A : Type} (f : A -> bool) (l : list A) :
  (forall x, In x l -> f x = true) -> filter f l = l.
Proof.
  induction l as [|x t IH]; intros H; simpl; [reflexivity|].
  rewrite (H x (or_introl eq_refl)). f_equal. apply IH. intros y Hy. apply H. now right.
Qed.




Lemma clean_temperature_out (df out : list reading) (ti ti' : xcom) :
  clean_temperature df ti = Ok (out, ti') ->
  df <> []
  /\ out = filter (in_band (quantile (map rtemp df) (5 # 100))
                           (quantile (map rtemp df) (95 # 100))) df.
Proof.
  intros Hrun. destruct df as [|r0 rest] eqn:E; [discriminate|]. rewrite <- E in *.
  assert (df <> []) as Hne by (rewrite E; discriminate).
  rewrite (clean_temperature_nonempty df ti Hne) in Hrun.
  split; [exact Hne|]. cbv zeta in Hrun. congruence.
Qed.





(** X3. When all the rows have one temperature, task 2 removes nothing:
    the cleaned frame is the input frame and [outliers_removed] is 0. *)
Theorem constant_temperature_all_kept :
  forall (df : list reading) (ti : xcom) (t : Q),
    df <> [] ->
    (forall r, In r df -> (rtemp r == t)%Q) ->
    exists ti',
      clean_temperature df ti = Ok (df, ti')
      /\ outliers_removed ti' = Some 0%Z
      /\ cleaned_rows ti' = Some (len df).
Proof.
  intros df ti t Hne Hall.
  rewrite (clean_temperature_nonempty df ti Hne). cbv zeta.
  assert (map rtemp df <> []) as Hne' by (destruct df; [contradiction|discriminate]).
  assert (forall x, In x (map rtemp df) -> (x == t)%Q) as Hall'.
  { intros x Hx. apply in_map_iff in Hx. destruct Hx as [r [<- Hr]]. now apply Hall. }
  assert (filter (in_band (quantile (map rtemp df) (5 # 100))
                          (quantile (map rtemp df) (95 # 100))) df = df) as Hf.
  { assert (quantile (map rtemp df) (5 # 100) == t)%Q as E5
      by (apply quantile_const; [exact Hne'|lra|lra|exact Hall']).
    assert (quantile (map rtemp df) (95 # 100) == t)%Q as E95
      by (apply quantile_const; [exact Hne'|lra|lra|exact Hall']).
    apply filter_all. intros r Hr. apply in_band_iff.
    rewrite E5, E95, (Hall r Hr). split; apply Qle_refl. }
  rewrite Hf. eexists. split; [reflexivity|]. split; [|reflexivity].
  simpl. f_equal. lia.
Qed.

Lemma constant_temperature_all_kept_witness :
  exists ti',
    clean_temperature
      [ mkReading (row "01-01-2026 10:00" 21 "In") (mkDate 2026 1 1);
        mkReading (row "02-01-2026 10:00" 21 "In") (mkDate 2026 1 2) ] xcom_empty
    = Ok ([ mkReading (row "01-01-2026 10:00" 21 "In") (mkDate 2026 1 1);
            mkReading (row "02-01-2026 10:00" 21 "In") (mkDate 2026 1 2) ], ti')
    /\ outliers_removed ti' = Some 0%Z
    /\ cleaned_rows ti'
       = Some (len [ mkReading (row "01-01-2026 10:00" 21 "In") (mkDate 2026 1 1);
                     mkReading (row "02-01-2026 10:00" 21 "In") (mkDate 2026 1 2) ]).
Proof.
  apply (constant_temperature_all_kept _ xcom_empty 21%Q).
  - discriminate.
  - intros r [<-|[<-|[]]]; reflexivity.
Defined.

(** ** Task 1: the accepted [out/in] values *)






(** ** Task 1: the dates of the output *)









(** ** Task 3: the selection *)

(** In a sorted list every element of a prefix is related to every
    element of the rest. *)
Lemma firstn_skipn_sorted {A : Type} (R : A -> A -> Prop) (n : nat) (l : list A) :
  StronglySorted R l ->
  forall x y, In x (firstn n l) -> In y (skipn n l) -> R x y.
Proof.
  intros H. revert n. induction H as [|a t Hs IH Hall]; intros n x y Hx Hy.
  - destruct n; contradiction.
  - destruct n as [|n]; [contradiction|]. simpl in Hx, Hy.
    destruct Hx as [<-|Hx].
    + rewrite Forall_forall in Hall. apply Hall.
      rewrite <- (firstn_skipn n t). apply in_or_app. now right.
    + now apply (IH n).
Qed.

Lemma in_firstn_or_skipn {A : Type} (n : nat) (l : list A) (x : A) :
  In x l -> In x (firstn n l) \/ In x (skipn n l).
Proof.
  intros H. rewrite <- (firstn_skipn n l) in H. now apply in_app_or in H.
Qed.

Lemma calculate_extreme_days_out (df : list reading) (ti ti' : xcom)
      (hottest coldest : list daily) :
  calculate_extreme_days df ti = Ok (hottest, coldest, ti') ->
  df <> []
  /\ hottest = nlargest 5 (daily_stats df)
  /\ coldest = nsmallest 5 (daily_stats df)
  /\ ti' = push_coldest_days coldest (push_hottest_days hottest ti).
Proof.
  intros Hrun. destruct df as [|r0 rest] eqn:E; [discriminate|]. rewrite <- E in *.
  assert (df <> []) as Hne by (rewrite E; discriminate).
  rewrite (calculate_extreme_days_nonempty df ti Hne) in Hrun.
  injection Hrun as <- <- <-. auto.
Qed.

(** X6. The rankings hold the extremes. A day that is not in the hottest
    ranking has an average no higher than any day in it, and a day that is
    not in the coldest ranking has an average no lower than any day in
    it; the first entry of each ranking is the maximum, respectively the
    minimum, of all the daily averages. *)
Theorem rankings_hold_the_extremes :
  forall (df : list reading) (ti ti' : xcom) (hottest coldest : list daily),
    calculate_extreme_days df ti = Ok (hottest, coldest, ti') ->
    forall e, In e (daily_stats df) ->
      (In e hottest \/ forall h, In h hottest -> (avg_temp e <= avg_temp h)%Q)
      /\ (In e coldest \/ forall c, In c coldest -> (avg_temp c <= avg_temp e)%Q)
      /\ (forall h rest, hottest = h :: rest -> (avg_temp e <= avg_temp h)%Q)
      /\ (forall c rest, coldest = c :: rest -> (avg_temp c <= avg_temp e)%Q).
Proof.
  intros df ti ti' hottest coldest Hrun e He.
  apply calculate_extreme_days_out in Hrun. destruct Hrun as [_ [-> [-> _]]].
  unfold nlargest, nsmallest.
  pose proof (avg_geb_sorted (daily_stats df)) as Hg.
  pose proof (avg_leb_sorted (daily_stats df)) as Hl.
  assert (In e (sort avg_geb (daily_stats df))) as Heg by now apply sort_In.
  assert (In e (sort avg_leb (daily_stats df))) as Hel by now apply sort_In.
  assert (In e (firstn 5 (sort avg_geb (daily_stats df)))
          \/ forall h, In h (firstn 5 (sort avg_geb (daily_stats df))) ->
                       (avg_temp e <= avg_temp h)%Q) as H1.
  { destruct (in_firstn_or_skipn 5 _ _ Heg) as [H|H]; [now left|right].
    intros h Hh. exact (firstn_skipn_sorted _ 5 _ Hg h e Hh H). }
  assert (In e (firstn 5 (sort avg_leb (daily_stats df)))
          \/ forall c, In c (firstn 5 (sort avg_leb (daily_stats df))) ->
                       (avg_temp c <= avg_temp e)%Q) as H2.
  { destruct (in_firstn_or_skipn 5 _ _ Hel) as [H|H]; [now left|right].
    intros c Hc. exact (firstn_skipn_sorted _ 5 _ Hl c e Hc H). }
  split; [exact H1|]. split; [exact H2|]. split.
  - intros h rest E. destruct H1 as [H|H]; [|apply H; rewrite E; now left].
    apply (StronglySorted_firstn _ 5) in Hg. rewrite E in Hg, H.
    destruct H as [<-|H]; [apply Qle_refl|].
    inversion Hg as [|? ? _ Hall]; subst. rewrite Forall_forall in Hall. now apply Hall.
  - intros c rest E. destruct H2 as [H|H]; [|apply H; rewrite E; now left].
    apply (StronglySorted_firstn _ 5) in Hl. rewrite E in Hl, H.
    destruct H as [<-|H]; [apply Qle_refl|].
    inversion Hl as [|? ? _ Hall]; subst. rewrite Forall_forall in Hall. now apply Hall.
Qed.

Lemma rankings_hold_the_extremes_witness :
  exists e : daily,
    In e (daily_stats sample_cleaned)
    /\ d_date e = mkDate 2026 1 2
    /\ (In e (nlargest 5 (daily_stats sample_cleaned))
        \/ forall h, In h (nlargest 5 (daily_stats sample_cleaned)) ->
                     (avg_temp e <= avg_temp h)%Q)
    /\ (In e (nsmallest 5 (daily_stats sample_cleaned))
        \/ forall c, In c (nsmallest 5 (daily_stats sample_cleaned)) ->
                     (avg_temp c <= avg_temp e)%Q)
    /\ (forall h rest, nlargest 5 (daily_stats sample_cleaned) = h :: rest ->
                       (avg_temp e <= avg_temp h)%Q)
    /\ (forall c rest, nsmallest 5 (daily_stats sample_cleaned) = c :: rest ->
                       (avg_temp c <= avg_temp e)%Q).
Proof.
  exists (nth 1 (daily_stats sample_cleaned) (mkDaily (mkDate 0 0 0) 0)).
  split; [right; left; reflexivity|]. split; [reflexivity|].
  apply (rankings_hold_the_extremes sample_cleaned xcom_empty _ _ _
           (calculate_extreme_days_nonempty sample_cleaned xcom_empty
              ltac:(discriminate))).
  right. left. reflexivity.
Defined.

(** X7. With at most five distinct dates in the cleaned frame, both
    rankings list every date of the frame, each once: they are the same
    days in two orders. *)
Theorem few_dates_all_ranked :
  forall (df : list reading) (ti ti' : xcom) (hottest coldest : list daily),
    calculate_extreme_days df ti = Ok (hottest, coldest, ti') ->
    List.length (daily_stats df) <= 5 ->
    Permutation hottest coldest
    /\ Permutation hottest (daily_stats df)
    /\ (forall r, In r df ->
          exists h c, In h hottest /\ In c coldest
                      /\ d_date h = date r /\ d_date c = date r).
Proof.
  intros df ti ti' hottest coldest Hrun Hlen.
  apply calculate_extreme_days_out in Hrun. destruct Hrun as [_ [-> [-> _]]].
  unfold nlargest, nsmallest.
  rewrite !firstn_all2 by (rewrite sort_length; exact Hlen).
  assert (Permutation (sort avg_geb (daily_stats df)) (daily_stats df)) as Pg
    by apply sort_perm.
  assert (Permutation (sort avg_leb (daily_stats df)) (daily_stats df)) as Pl
    by apply sort_perm.
  split; [now rewrite Pg, Pl|]. split; [exact Pg|].
  intros r Hr.
  assert (In (date r) (map d_date (daily_stats df))) as Hd.
  { rewrite daily_stats_dates, (sort_In Date_leb), (unique_In _ Date_eqb_eq).
    now apply in_map. }
  apply in_map_iff in Hd. destruct Hd as [e [Ee He]].
  exists e, e. repeat split; try assumption; now apply sort_In.
Qed.

Lemma few_dates_all_ranked_witness :
  Permutation (nlargest 5 (daily_stats sample_cleaned))
              (nsmallest 5 (daily_stats sample_cleaned))
  /\ Permutation (nlargest 5 (daily_stats sample_cleaned)) (daily_stats sample_cleaned)
  /\ (forall r, In r sample_cleaned ->
        exists h c, In h (nlargest 5 (daily_stats sample_cleaned))
                    /\ In c (nsmallest 5 (daily_stats sample_cleaned))
                    /\ d_date h = date r /\ d_date c = date r).
Proof.
  apply (few_dates_all_ranked sample_cleaned xcom_empty _ _ _
           (calculate_extreme_days_nonempty sample_cleaned xcom_empty
              ltac:(discriminate))).
  vm_compute. lia.
Defined.

(** ** Tasks 2 and 3 together: the averages stay in the band *)







(** ** The whole run, further *)

(** The frames of a run, from the raw rows. *)
Lemma run_dag_cases (now : string) (csv : list raw_reading) :
  let filtered := dropna_date (assign_date (filter_in csv)) in
  let v5 := quantile (map rtemp filtered) (5 # 100) in
  let v95 := quantile (map rtemp filtered) (95 # 100) in
  let cleaned := filter (in_band v5 v95) filtered in
  let ti := complete_facts (len csv) (len filtered) (len filtered - len cleaned)
              v5 v95 (len cleaned)
              (nlargest 5 (daily_stats cleaned)) (nsmallest 5 (daily_stats cleaned)) in
  (filter_in csv = []
   /\ run_dag now csv = Err (NoMatchingRecords (unique String.eqb (map out_in csv))))
  \/ (filter_in csv <> [] /\ filtered = [] /\ run_dag now csv = Err EmptyInput)
  \/ (filtered <> [] /\ cleaned = [] /\ run_dag now csv = Err EmptyInput)
  \/ (filtered <> [] /\ cleaned <> [] /\ len csv <> 0%Z
      /\ exists report,
           generate_report now ti = Ok report /\ run_dag now csv = Ok (ti, report)).
Proof.
  cbv zeta. unfold run_dag.
  destruct (load_and_filter_data_cases csv xcom_empty) as [[Hnil E]|[Hne E]]; rewrite E.
  { left. split; [exact Hnil|reflexivity]. }
  right. cbn [bind].
  set (filtered := dropna_date (assign_date (filter_in csv))).
  destruct filtered as [|r0 rest] eqn:Ef.
  { left. split; [exact Hne|]. split; reflexivity. }
  rewrite <- Ef. assert (filtered <> []) as Hfne by (subst filtered; rewrite Ef; discriminate).
  right. rewrite (clean_temperature_nonempty filtered _ Hfne). cbv zeta. cbn [bind].
  set (cleaned := filter _ filtered).
  destruct cleaned as [|c0 crest] eqn:Ec.
  { left. split; [exact Hfne|]. split; reflexivity. }
  rewrite <- Ec. assert (cleaned <> []) as Hcne by (subst cleaned; rewrite Ec; discriminate).
  right. rewrite (calculate_extreme_days_nonempty cleaned _ Hcne). cbn [bind].
  assert (len csv <> 0%Z) as Hnz.
  { unfold len. destruct csv; [contradiction Hne; reflexivity|]. simpl. lia. }
  split; [exact Hfne|]. split; [exact Hcne|]. split; [exact Hnz|].
  match goal with
  | |- context [bind (generate_report now ?t) _] =>
      change t with (complete_facts (len csv) (len filtered) (len filtered - len cleaned)
                       (quantile (map rtemp filtered) (5 # 100))
                       (quantile (map rtemp filtered) (95 # 100)) (len cleaned)
                       (nlargest 5 (daily_stats cleaned)) (nsmallest 5 (daily_stats cleaned)))
  end.
  set (ti := complete_facts _ _ _ _ _ _ _ _).
  pose proof (generate_report_ok now ti (len csv) (len filtered)
                (quantile (map rtemp filtered) (5 # 100))
                (quantile (map rtemp filtered) (95 # 100))
                (nlargest 5 (daily_stats cleaned)) (nsmallest 5 (daily_stats cleaned))
                eq_refl eq_refl eq_refl eq_refl eq_refl eq_refl Hnz) as Hrep.
  rewrite Hrep. cbn [bind]. eexists. split; reflexivity.
Qed.

(** X9. In the chain of the DAG the report task cannot fail: when the
    three tasks before it have succeeded one after the other, on any raw
    frame and any initial store, [generate_report] returns a report, in
    particular without a division by zero. *)
Theorem report_succeeds_after_three_tasks :
  forall (now : string) (csv : list raw_reading) (ti0 ti1 ti2 ti3 : xcom)
         (filtered cleaned : list reading) (hottest coldest : list daily),
    load_and_filter_data csv ti0 = Ok (filtered, ti1) ->
    clean_temperature filtered ti1 = Ok (cleaned, ti2) ->
    calculate_extreme_days cleaned ti2 = Ok (hottest, coldest, ti3) ->
    exists report, generate_report now ti3 = Ok report.
Proof.
  intros now csv ti0 ti1 ti2 ti3 filtered cleaned hottest coldest H1 H2 H3.
  destruct (load_and_filter_data_cases csv ti0) as [[_ E]|[Hne E]];
    rewrite E in H1; [discriminate|].
  injection H1 as <- <-.
  pose proof (clean_temperature_out _ _ _ _ H2) as [Hfne _].
  rewrite (clean_temperature_nonempty _ _ Hfne) in H2. cbv zeta in H2.
  injection H2 as <- <-.
  apply calculate_extreme_days_out in H3. destruct H3 as [_ [-> [-> ->]]].
  eexists. eapply generate_report_ok; try reflexivity.
  unfold len. destruct csv; [contradiction Hne; reflexivity|]. simpl. lia.
Qed.

Lemma report_succeeds_after_three_tasks_witness :
  exists (filtered cleaned : list reading) (ti1 ti2 ti3 : xcom)
         (hottest coldest : list daily),
    load_and_filter_data sample_csv xcom_empty = Ok (filtered, ti1)
    /\ clean_temperature filtered ti1 = Ok (cleaned, ti2)
    /\ calculate_extreme_days cleaned ti2 = Ok (hottest, coldest, ti3)
    /\ exists report, generate_report sample_now ti3 = Ok report.
Proof.
  eexists _, _, _, _, _, _, _.
  split; [reflexivity|]. split; [reflexivity|]. split; [reflexivity|].
  eapply (report_succeeds_after_three_tasks sample_now sample_csv xcom_empty);
    reflexivity.
Defined.



Lemma unique_nonempty {A : Type} (eqb : A -> A -> bool) (l : list A) :
  l <> [] -> unique eqb l <> [].
Proof. destruct l; [contradiction|discriminate]. Qed.

Lemma daily_stats_nonempty (df : list reading) : df <> [] -> daily_stats df <> [].
Proof.
  intros Hne H. apply (f_equal (@List.length daily)) in H.
  rewrite <- (length_map d_date), daily_stats_dates, sort_length in H.
  apply length_zero_iff_nil in H. revert H. apply unique_nonempty.
  destruct df; [contradiction|discriminate].
Qed.

(** X11. After a completed run all eight keys of the store are present and
    agree with each other: [total_rows] is the number of raw rows,
    [outliers_removed + cleaned_rows = filtered_rows] with at least one
    cleaned row, [p5 <= p95], both rankings have the same number of
    entries, between one and five, and the returned text is the report
    of exactly these facts. *)
Theorem completed_run_facts :
  forall (now : string) (csv : list raw_reading) (ti : xcom) (report : string),
    run_dag now csv = Ok (ti, report) ->
    exists (t f o c : Z) (a b : Q) (hottest coldest : list daily),
      ti = complete_facts t f o a b c hottest coldest
      /\ t = len csv /\ (0 < t)%Z
      /\ (o + c = f)%Z /\ (0 <= o)%Z /\ (1 <= c)%Z
      /\ (a <= b)%Q
      /\ 1 <= List.length hottest <= 5
      /\ List.length coldest = List.length hottest
      /\ generate_report now ti = Ok report.
Proof.
  intros now csv ti report Hrun.
  pose proof (run_dag_cases now csv) as Hcases. cbv zeta in Hcases.
  destruct Hcases as [[_ E]|[[_ [_ E]]|[[_ [_ E]]|[Hf [Hc [Hnz [rep [Hrep E]]]]]]]];
    rewrite E in Hrun; try discriminate.
  injection Hrun as <- <-.
  set (filtered := dropna_date (assign_date (filter_in csv))) in *.
  set (cleaned := filter _ filtered) in *.
  eexists _, _, _, _, _, _, _, _. split; [reflexivity|].
  split; [reflexivity|].
  assert (List.length cleaned <= List.length filtered) as Hle
    by (subst cleaned; apply filter_length_le).
  assert (0 < List.length cleaned) as Hpos
    by (destruct cleaned; [contradiction|simpl; lia]).
  pose proof (daily_stats_nonempty cleaned Hc) as Hds.
  assert (0 < List.length (daily_stats cleaned)) as Hdpos
    by (destruct (daily_stats cleaned); [contradiction|simpl; lia]).
  unfold len in *. split; [lia|]. split; [lia|]. split; [lia|]. split; [lia|].
  split.
  - apply quantile_mono; try lra. destruct filtered; [contradiction|discriminate].
  - unfold nlargest, nsmallest. rewrite !length_firstn, !sort_length.
    split; [lia|]. split; [reflexivity|exact Hrep].
Qed.

Lemma completed_run_facts_witness :
  exists (ti : xcom) (report : string),
    run_dag sample_now sample_csv = Ok (ti, report)
    /\ exists (t f o c : Z) (a b : Q) (hottest coldest : list daily),
         ti = complete_facts t f o a b c hottest coldest
         /\ t = len sample_csv /\ (0 < t)%Z
         /\ (o + c = f)%Z /\ (0 <= o)%Z /\ (1 <= c)%Z
         /\ (a <= b)%Q
         /\ 1 <= List.length hottest <= 5
         /\ List.length coldest = List.length hottest
         /\ generate_report sample_now ti = Ok report.
Proof.
  assert ({p : xcom * string | run_dag sample_now sample_csv = Ok p}) as [[ti report] H]
    by (eexists; vm_compute; reflexivity).
  exists ti, report. split; [exact H|].
  exact (completed_run_facts sample_now sample_csv ti report H).
Defined.

(** ** Task 2: a single extreme reading *)













(** ** Running a task again *)

(** X13. A task that has succeeded can be run again on the same frame with
    the store it left: it returns the same frame and leaves the store as
    it is, since it pushes the same values under the same keys. *)
Theorem rerun_leaves_store :
  forall (csv : list raw_reading) (df : list reading) (ti : xcom),
    (forall out ti', load_and_filter_data csv ti = Ok (out, ti') ->
                     load_and_filter_data csv ti' = Ok (out, ti'))
    /\ (forall out ti', clean_temperature df ti = Ok (out, ti') ->
                        clean_temperature df ti' = Ok (out, ti'))
    /\ (forall hottest coldest ti',
          calculate_extreme_days df ti = Ok (hottest, coldest, ti') ->
          calculate_extreme_days df ti' = Ok (hottest, coldest, ti')).
Proof.
  intros csv df ti. split; [|split].
  - intros out ti' H.
    destruct (load_and_filter_data_cases csv ti) as [[_ E]|[Hne E]];
      rewrite E in H; [discriminate|].
    injection H as <- <-.
    destruct (load_and_filter_data_cases csv
                (push_total_rows (len csv)
                   (push_filtered_rows (len (dropna_date (assign_date (filter_in csv)))) ti)))
      as [[Hnil _]|[_ E']]; [contradiction|].
    rewrite E'. destruct ti. reflexivity.
  - intros out ti' H.
    pose proof (clean_temperature_out _ _ _ _ H) as [Hne _].
    rewrite (clean_temperature_nonempty df ti Hne) in H. cbv zeta in H.
    injection H as <- <-.
    rewrite (clean_temperature_nonempty df _ Hne). cbv zeta.
    destruct ti. reflexivity.
  - intros hottest coldest ti' H.
    pose proof (calculate_extreme_days_out _ _ _ _ _ H) as [Hne [-> [-> ->]]].
    rewrite (calculate_extreme_days_nonempty df _ Hne).
    destruct ti. reflexivity.
Qed.

Lemma rerun_leaves_store_witness :
  exists (out : list reading) (ti' : xcom),
    clean_temperature sample_filtered xcom_empty = Ok (out, ti')
    /\ clean_temperature sample_filtered ti' = Ok (out, ti').
Proof.
  eexists _, _. split; [reflexivity|].
  apply (proj1 (proj2 (rerun_leaves_store [] sample_filtered xcom_empty))).
  reflexivity.
Defined.
